(** * zen-freq: a shallow embedding of the AMD Zen cpufreq driver

    The definitions below follow [zen-freq.c] and [zen-freq.h] function by
    function.  C integers are mathematical integers ([Z]) with the
    wrap-around of their type written out ([u8], [u32], [u64], [s32]);
    the per-CPU structure is a record that every function takes and
    returns; what the kernel or the hardware supplies (MSR contents, the
    clock, allocation results, whether a CPU is online) is an argument. *)

From stdpp Require Import base numbers list strings.

Open Scope Z_scope.

(** ** Machine integers *)

Definition u8 (x : Z) : Z := x mod 2 ^ 8.
Definition u32 (x : Z) : Z := x mod 2 ^ 32.
Definition u64 (x : Z) : Z := x mod 2 ^ 64.
(** Two's complement 32-bit value of [x] (the kernel is built with wrapping
    signed arithmetic). *)
Definition s32 (x : Z) : Z := (x + 2 ^ 31) mod 2 ^ 32 - 2 ^ 31.

Definition BIT (n : Z) : Z := Z.shiftl 1 n.

(** ** Constants of [zen-freq.h] *)

Definition PSTATE_DEF_EN : Z := BIT 63.
Definition PSTATE_DEF_DID (val : Z) : Z := Z.land (Z.shiftr val 6) 0x1F.
Definition PSTATE_DEF_FID (val : Z) : Z := Z.land val 0x3F.
Definition PSTATE_DEF_VID (val : Z) : Z := Z.land (Z.shiftr val 11) 0xFF.
Definition PSTATE_DEF_CUR_DIV (val : Z) : Z := Z.land (Z.shiftr val 4) 0x3.

Definition THERM_STATUS_VALID : Z := BIT 31.
Definition THERM_STATUS_TEMP (val : Z) : Z := Z.land (Z.shiftr val 16) 0x7F.

Definition ZEN_MAX_PSTATES : nat := 8.
Definition ZEN_MAX_BOOST_STATES : nat := 4.

Definition ZEN_THERMAL_SOFT_LIMIT : Z := 80.
Definition ZEN_THERMAL_HARD_LIMIT : Z := 90.
Definition ZEN_THERMAL_HYSTERESIS : Z := 3.
Definition ZEN_THERMAL_SAFE_LIMIT : Z := 75.

Definition ZEN_THERMAL_KP : Z := 50.
Definition ZEN_THERMAL_KI : Z := 10.
Definition ZEN_THERMAL_INTEGRAL_MAX : Z := 1000.

Definition ZEN_VOLTAGE_MAX_SAFE : Z := 1450.
Definition ZEN_VOLTAGE_BOOST_MAX : Z := 1500.

Definition ZEN_EPP_BALANCE : Z := 0x80.

Definition ZEN_FREQ_MODE_BALANCE : Z := 1.

Definition ZEN_FREQ_BASE : Z := 25.
Definition ZEN_FREQ_MULTIPLIER : Z := 1000.

(** [<linux/cpufreq.h>]: the frequency that ends a frequency table, [~1u]. *)
Definition CPUFREQ_TABLE_END : Z := 4294967294.

(** [<linux/errno.h>] *)
Definition ENXIO : Z := 6.
Definition ENOMEM : Z := 12.
Definition ENODEV : Z := 19.
Definition EINVAL : Z := 22.

Definition UINT_MAX : Z := 2 ^ 32 - 1.

(** [ZEN_VID_TO_MV]: [vid] is a [u8], the subtraction is done in [int] and
    the result is stored in a [u32]. *)
Definition ZEN_VID_TO_MV (vid : Z) : Z := u32 (1550 - vid * 25).

Definition ZEN_CLAMP (val lo hi : Z) : Z :=
  if val <? lo then lo else if val >? hi then hi else val.

(** [ZEN_PERF_TO_FREQ], used with [u8] performance values and [u32]
    frequencies: the product and the division are unsigned 32-bit.  [None]
    is the divide error raised when [max_perf = min_perf]. *)
Definition ZEN_PERF_TO_FREQ (perf min_perf max_perf min_freq max_freq : Z)
  : option Z :=
  let divisor := u32 (max_perf - min_perf) in
  if divisor =? 0 then None
  else Some (u32 (min_freq +
                  u32 (u32 (max_freq - min_freq) * u32 (perf - min_perf))
                  / divisor)).

(** [ZEN_FREQ_TO_PERF], used with [unsigned int] frequencies and [int]
    performance bounds.  [None] is the divide error raised when
    [max_freq = min_freq]. *)
Definition ZEN_FREQ_TO_PERF (freq min_freq max_freq min_perf max_perf : Z)
  : option Z :=
  let divisor := u32 (max_freq - min_freq) in
  if divisor =? 0 then None
  else Some (u32 (min_perf +
                  u32 (u32 (max_perf - min_perf) * u32 (freq - min_freq))
                  / divisor)).

(** ** Data model *)

Inductive zen_thermal_state : Set :=
  | ZEN_THERMAL_NORMAL
  | ZEN_THERMAL_SOFT_THROTTLE
  | ZEN_THERMAL_HARD_THROTTLE
  | ZEN_THERMAL_RECOVERY.

Record zen_perf_target : Set := mk_perf_target {
  desired_perf : Z;
  min_perf : Z;
  max_perf : Z;
  epp : Z;
  timestamp : Z;
  sequence : Z
}.

Record zen_pstate : Set := mk_pstate {
  pstate : Z;
  freq : Z;
  voltage : Z;
  vid : Z;
  fid : Z;
  did : Z;
  div : Z;
  en : bool;
  boost : bool;
  safe : bool
}.

(** The anonymous [stats] structure of [struct zen_freq_cpu]. *)
Record zen_stats : Set := mk_stats {
  transitions : Z;
  io_boosts : Z;
  thermal_events : Z;
  voltage_clamps : Z;
  total_time_ns : Z
}.

Record cpufreq_frequency_table : Set := mk_table_entry {
  driver_data : Z;
  frequency : Z
}.

(** [struct zen_freq_cpu].  [pstates] and [boost_states] are the fixed
    arrays; [perf_target] and [freq_table_rcu] are pointers, [None] when
    NULL.  [boost_supported] is written by [zen_freq_get_pstate_info]. *)
Record zen_freq_cpu : Set := mk_zcpu {
  cpu : Z;
  pstates : list zen_pstate;
  num_pstates : Z;
  boost_states : list zen_pstate;
  num_boost : Z;
  max_freq : Z;
  min_freq : Z;
  nominal_freq : Z;
  highest_perf : Z;
  lowest_perf : Z;
  nominal_perf : Z;
  boost_supported : bool;
  cur_pstate : Z;
  cur_freq : Z;
  perf_target : option zen_perf_target;
  freq_table_rcu : option (list cpufreq_frequency_table);
  thermal_state : zen_thermal_state;
  thermal_integral : Z;
  thermal_throttle_perf : Z;
  last_temp : Z;
  io_boost_active : bool;
  dynamic_epp : Z;
  stats : zen_stats
}.

(** The fields of [struct cpufreq_policy] the driver uses ([policy->cpu],
    [policy->cur], [policy->min], [policy->max]); [policy->driver_data] is
    passed next to the policy. *)
Record cpufreq_policy : Set := mk_policy {
  p_cpu : Z;
  p_cur : Z;
  p_min : Z;
  p_max : Z
}.

(** The module parameters that the modelled functions read. *)
Record zen_module_params : Set := mk_params {
  zen_freq_max_perf : Z;
  zen_freq_soft_temp : Z;
  zen_freq_hard_temp : Z;
  zen_freq_voltage_max : Z
}.

Definition default_params : zen_module_params :=
  {| zen_freq_max_perf := 255;
     zen_freq_soft_temp := ZEN_THERMAL_SOFT_LIMIT;
     zen_freq_hard_temp := ZEN_THERMAL_HARD_LIMIT;
     zen_freq_voltage_max := ZEN_VOLTAGE_MAX_SAFE |}.

(** *** Field assignments *)

Definition set_voltage (v : Z) (ps : zen_pstate) : zen_pstate :=
  let '(mk_pstate a b _ d e f g h i j) := ps in mk_pstate a b v d e f g h i j.
Definition set_boost (v : bool) (ps : zen_pstate) : zen_pstate :=
  let '(mk_pstate a b c d e f g h _ j) := ps in mk_pstate a b c d e f g h v j.
Definition set_safe (v : bool) (ps : zen_pstate) : zen_pstate :=
  let '(mk_pstate a b c d e f g h i _) := ps in mk_pstate a b c d e f g h i v.

Definition set_transitions (v : Z) (s : zen_stats) : zen_stats :=
  let '(mk_stats _ b c d e) := s in mk_stats v b c d e.
Definition set_thermal_events (v : Z) (s : zen_stats) : zen_stats :=
  let '(mk_stats a b _ d e) := s in mk_stats a b v d e.
Definition set_voltage_clamps (v : Z) (s : zen_stats) : zen_stats :=
  let '(mk_stats a b c _ e) := s in mk_stats a b c v e.

Definition set_pstates (v : list zen_pstate) (z : zen_freq_cpu) :=
  let '(mk_zcpu a _ c d e f g h i j k l m n o p q r s t u w x) := z in
  mk_zcpu a v c d e f g h i j k l m n o p q r s t u w x.
Definition set_boost_states (v : list zen_pstate) (z : zen_freq_cpu) :=
  let '(mk_zcpu a b c _ e f g h i j k l m n o p q r s t u w x) := z in
  mk_zcpu a b c v e f g h i j k l m n o p q r s t u w x.
Definition set_cur_pstate (v : Z) (z : zen_freq_cpu) :=
  let '(mk_zcpu a b c d e f g h i j k l _ n o p q r s t u w x) := z in
  mk_zcpu a b c d e f g h i j k l v n o p q r s t u w x.
Definition set_cur_freq (v : Z) (z : zen_freq_cpu) :=
  let '(mk_zcpu a b c d e f g h i j k l m _ o p q r s t u w x) := z in
  mk_zcpu a b c d e f g h i j k l m v o p q r s t u w x.
Definition set_perf_target (v : option zen_perf_target) (z : zen_freq_cpu) :=
  let '(mk_zcpu a b c d e f g h i j k l m n _ p q r s t u w x) := z in
  mk_zcpu a b c d e f g h i j k l m n v p q r s t u w x.
Definition set_freq_table_rcu (v : option (list cpufreq_frequency_table))
    (z : zen_freq_cpu) :=
  let '(mk_zcpu a b c d e f g h i j k l m n o _ q r s t u w x) := z in
  mk_zcpu a b c d e f g h i j k l m n o v q r s t u w x.
Definition set_thermal_state (v : zen_thermal_state) (z : zen_freq_cpu) :=
  let '(mk_zcpu a b c d e f g h i j k l m n o p _ r s t u w x) := z in
  mk_zcpu a b c d e f g h i j k l m n o p v r s t u w x.
Definition set_thermal_integral (v : Z) (z : zen_freq_cpu) :=
  let '(mk_zcpu a b c d e f g h i j k l m n o p q _ s t u w x) := z in
  mk_zcpu a b c d e f g h i j k l m n o p q v s t u w x.
Definition set_thermal_throttle_perf (v : Z) (z : zen_freq_cpu) :=
  let '(mk_zcpu a b c d e f g h i j k l m n o p q r _ t u w x) := z in
  mk_zcpu a b c d e f g h i j k l m n o p q r v t u w x.
Definition set_last_temp (v : Z) (z : zen_freq_cpu) :=
  let '(mk_zcpu a b c d e f g h i j k l m n o p q r s _ u w x) := z in
  mk_zcpu a b c d e f g h i j k l m n o p q r s v u w x.
Definition set_stats (v : zen_stats) (z : zen_freq_cpu) :=
  let '(mk_zcpu a b c d e f g h i j k l m n o p q r s t u w _) := z in
  mk_zcpu a b c d e f g h i j k l m n o p q r s t u w v.

(** Zero-filled memory, as [kzalloc] returns it. *)
Definition zero_pstate : zen_pstate :=
  mk_pstate 0 0 0 0 0 0 0 false false false.
Definition zero_stats : zen_stats := mk_stats 0 0 0 0 0.
Definition zero_perf_target : zen_perf_target := mk_perf_target 0 0 0 0 0 0.
Definition zero_zcpu : zen_freq_cpu :=
  mk_zcpu 0 (replicate ZEN_MAX_PSTATES zero_pstate) 0
          (replicate ZEN_MAX_BOOST_STATES zero_pstate) 0
          0 0 0 0 0 0 false 0 0 None None
          ZEN_THERMAL_NORMAL 0 0 0 false 0 zero_stats.

(** [arr[i]] for an index held in a C unsigned integer. *)
Definition pstate_at (arr : list zen_pstate) (i : Z) : zen_pstate :=
  default zero_pstate (arr !! Z.to_nat i).

(** [for (i = i0; i < i0 + n; i++) body], for loops without [break]. *)
Fixpoint for_loop {S : Type} (n : nat) (i : Z) (body : Z -> S -> S) (s : S)
  : S :=
  match n with
  | O => s
  | S n' => for_loop n' (i + 1) body (body i s)
  end.

(** ** MSR access *)

(** [zen_write_pstate_local]: runs on the target CPU.  [msr] is the content
    of the P-state control MSR of that CPU; the result is the per-CPU data
    and the MSR after the write. *)
Definition zen_write_pstate_local (zcpu : zen_freq_cpu) (msr : Z)
  : zen_freq_cpu * Z :=
  let pstate_val := msr in
  let pstate_val := Z.land pstate_val (u64 (Z.lnot 0x3F)) in
  let pstate_val := Z.lor pstate_val (Z.lor (cur_pstate zcpu) (BIT 6)) in
  let zcpu :=
    if cur_pstate zcpu <? num_pstates zcpu
    then set_cur_freq (freq (pstate_at (pstates zcpu) (cur_pstate zcpu))) zcpu
    else zcpu in
  (zcpu, pstate_val).

(** The kernel's [smp_call_function_single(cpu, func, info, wait)]: the
    function runs on [cpu] and 0 is returned, or the CPU is not online,
    nothing runs and [-ENXIO] is returned. *)
Definition smp_call_function_single {A : Type} (online : bool)
    (func : A -> A) (info : A) : Z * A :=
  if online then (0, func info) else (- ENXIO, info).

(** [zen_read_temperature]: [therm] is what [rdmsrl_safe_on_cpu] read from
    [MSR_IA32_THERM_STATUS], [None] when that read failed. *)
Definition zen_read_temperature (therm : option Z) : Z :=
  match therm with
  | None => 0
  | Some therm_status =>
      if Z.land therm_status THERM_STATUS_VALID =? 0 then 0
      else THERM_STATUS_TEMP therm_status
  end.

Section Driver.

(** The module parameters are global variables of the driver. *)
Variable mp : zen_module_params.

(** ** Thermal guard *)

(** [zen_thermal_pi_controller]: returns the recommended ceiling and the
    per-CPU data with the updated integral term. *)
Definition zen_thermal_pi_controller (zcpu : zen_freq_cpu) (temp : Z)
  : Z * zen_freq_cpu :=
  let error := s32 (s32 temp - s32 (zen_freq_soft_temp mp)) in
  let proportional := Z.quot (s32 (error * ZEN_THERMAL_KP)) 1000 in
  let acc := s32 (thermal_integral zcpu + error) in
  let acc :=
    if acc >? ZEN_THERMAL_INTEGRAL_MAX then ZEN_THERMAL_INTEGRAL_MAX
    else if acc <? - ZEN_THERMAL_INTEGRAL_MAX then - ZEN_THERMAL_INTEGRAL_MAX
    else acc in
  let zcpu := set_thermal_integral acc zcpu in
  let integral := Z.quot (s32 (acc * ZEN_THERMAL_KI)) 1000 in
  let adjustment := s32 (proportional + integral) in
  let max_perf :=
    if adjustment >? 0 then u8 (255 - ZEN_CLAMP adjustment 0 255) else 255 in
  (max_perf, zcpu).

(** [zen_thermal_check_cpu].  The local [new_max_perf] is declared without
    an initial value: it is [None] until a branch assigns it, and [indet]
    is the byte that is read from it when no branch did.  The [default:]
    label of the [switch] has no counterpart: the enumeration has four
    values. *)
Definition zen_thermal_check_cpu (zcpu : zen_freq_cpu) (therm : option Z)
    (indet : Z) : zen_freq_cpu :=
  let temp := zen_read_temperature therm in
  if temp =? 0 then zcpu
  else
    let zcpu := set_last_temp temp zcpu in
    let '(new_state, new_max_perf, zcpu) :=
      match thermal_state zcpu with
      | ZEN_THERMAL_NORMAL =>
          if temp >=? zen_freq_hard_temp mp then
            (ZEN_THERMAL_HARD_THROTTLE, Some (lowest_perf zcpu), zcpu)
          else if temp >=? zen_freq_soft_temp mp then
            let '(perf, zcpu) := zen_thermal_pi_controller zcpu temp in
            (ZEN_THERMAL_SOFT_THROTTLE, Some perf, zcpu)
          else
            (ZEN_THERMAL_NORMAL, Some (u8 (zen_freq_max_perf mp)), zcpu)
      | ZEN_THERMAL_SOFT_THROTTLE =>
          if temp >=? zen_freq_hard_temp mp then
            (ZEN_THERMAL_HARD_THROTTLE, Some (lowest_perf zcpu), zcpu)
          else if temp <? u32 (zen_freq_soft_temp mp - ZEN_THERMAL_HYSTERESIS)
          then
            (ZEN_THERMAL_RECOVERY, None, set_thermal_integral 0 zcpu)
          else
            let '(perf, zcpu) := zen_thermal_pi_controller zcpu temp in
            (ZEN_THERMAL_SOFT_THROTTLE, Some perf, zcpu)
      | ZEN_THERMAL_HARD_THROTTLE =>
          if temp <? u32 (zen_freq_hard_temp mp - ZEN_THERMAL_HYSTERESIS) then
            let '(perf, zcpu) := zen_thermal_pi_controller zcpu temp in
            (ZEN_THERMAL_SOFT_THROTTLE, Some perf, zcpu)
          else
            (ZEN_THERMAL_HARD_THROTTLE, Some (lowest_perf zcpu), zcpu)
      | ZEN_THERMAL_RECOVERY =>
          if temp <? ZEN_THERMAL_SAFE_LIMIT then
            (ZEN_THERMAL_NORMAL, Some (u8 (zen_freq_max_perf mp)), zcpu)
          else if temp >=? zen_freq_soft_temp mp then
            let '(perf, zcpu) := zen_thermal_pi_controller zcpu temp in
            (ZEN_THERMAL_SOFT_THROTTLE, Some perf, zcpu)
          else
            (ZEN_THERMAL_RECOVERY,
             Some (u8 (Z.min (thermal_throttle_perf zcpu + 10) 255)), zcpu)
      end in
    let new_max_perf := default indet new_max_perf in
    let zcpu :=
      if new_max_perf =? thermal_throttle_perf zcpu then zcpu
      else
        let zcpu := set_thermal_throttle_perf new_max_perf zcpu in
        set_stats (set_thermal_events
                     (u64 (thermal_events (stats zcpu) + 1)) (stats zcpu))
                  zcpu in
    set_thermal_state new_state zcpu.

(** One pass of [zen_thermal_thread] over a single CPU is one call of
    [zen_thermal_check_cpu]; [polls] lists, poll after poll, what the
    sensor MSR held and the byte an unassigned [new_max_perf] would
    yield.  The result lists the per-CPU data after each poll. *)
Fixpoint thermal_polls (zcpu : zen_freq_cpu) (polls : list (option Z * Z))
  : list zen_freq_cpu :=
  match polls with
  | [] => []
  | (therm, indet) :: rest =>
      let zcpu := zen_thermal_check_cpu zcpu therm indet in
      zcpu :: thermal_polls zcpu rest
  end.

(** ** Voltage safety verification *)

(** [zen_voltage_verify_pstate]: the verdict and the P-state as the
    function leaves it. *)
Definition zen_voltage_verify_pstate (ps : zen_pstate) : bool * zen_pstate :=
  let voltage_mv := ZEN_VID_TO_MV (vid ps) in
  let ps := set_voltage voltage_mv ps in
  if voltage_mv >? zen_freq_voltage_max mp then
    if boost ps && (voltage_mv <=? ZEN_VOLTAGE_BOOST_MAX) then (true, ps)
    else (false, set_safe false ps)
  else (true, set_safe true ps).

(** The body of the first loop of [zen_voltage_check_all_pstates], run at
    index [i] on the pair of [has_unsafe] and the per-CPU data. *)
Definition check_pstate_body (i : Z) (acc : bool * zen_freq_cpu)
  : bool * zen_freq_cpu :=
  let '(has_unsafe, zcpu) := acc in
  let '(ok, ps) := zen_voltage_verify_pstate (pstate_at (pstates zcpu) i) in
  let zcpu := set_pstates (<[Z.to_nat i := ps]> (pstates zcpu)) zcpu in
  if ok then (has_unsafe, zcpu)
  else (true,
        set_stats (set_voltage_clamps
                     (u64 (voltage_clamps (stats zcpu) + 1)) (stats zcpu))
                  zcpu).

(** The body of the second loop, over [boost_states]. *)
Definition check_boost_state_body (i : Z) (acc : bool * zen_freq_cpu)
  : bool * zen_freq_cpu :=
  let '(has_unsafe, zcpu) := acc in
  let '(ok, ps) :=
    zen_voltage_verify_pstate (pstate_at (boost_states zcpu) i) in
  let zcpu :=
    set_boost_states (<[Z.to_nat i := ps]> (boost_states zcpu)) zcpu in
  if ok then (has_unsafe, zcpu) else (true, zcpu).

(** [zen_voltage_check_all_pstates]: the return value (always 0), the
    [has_unsafe] flag that decides the warning, and the per-CPU data. *)
Definition zen_voltage_check_all_pstates (zcpu : zen_freq_cpu)
  : Z * bool * zen_freq_cpu :=
  let acc :=
    for_loop (Z.to_nat (num_pstates zcpu)) 0 check_pstate_body (false, zcpu) in
  let '(has_unsafe, zcpu) :=
    for_loop (Z.to_nat (num_boost (snd acc))) 0 check_boost_state_body acc in
  (0, has_unsafe, zcpu).

End Driver.

(** ** Performance target *)

(** [zen_perf_target_alloc]: [kzalloc] either fails or returns zeroed
    memory. *)
Definition zen_perf_target_alloc (alloc_ok : bool) : option zen_perf_target :=
  if alloc_ok then Some zero_perf_target else None.

(** [zen_perf_target_update]: [now] is the value of [sched_clock()].  The
    result is the per-CPU data and the target handed to [kfree_rcu]. *)
Definition zen_perf_target_update (zcpu : zen_freq_cpu)
    (desired min max epp : Z) (alloc_ok : bool) (now : Z)
  : zen_freq_cpu * option zen_perf_target :=
  match zen_perf_target_alloc alloc_ok with
  | None => (zcpu, None)
  | Some _ =>
      let new_target :=
        {| desired_perf := u8 desired;
           min_perf := u8 min;
           max_perf := u8 max;
           epp := u8 epp;
           timestamp := u64 now;
           sequence := u32 (cur_pstate zcpu + 1) |} in
      let old_target := perf_target zcpu in
      (set_perf_target (Some new_target) zcpu, old_target)
  end.

(** ** Lock-less fast switch *)

(** The scan of the frequency table in [zen_freq_fast_switch_lockless];
    [best_freq] starts as [policy->cur]. *)
Fixpoint freq_table_scan (table : list cpufreq_frequency_table)
    (target_freq best_freq : Z) : Z :=
  match table with
  | [] => best_freq
  | entry :: rest =>
      let f := frequency entry in
      if f =? CPUFREQ_TABLE_END then best_freq
      else if f =? target_freq then f
      else
        freq_table_scan rest target_freq
          (if (f <=? target_freq) && (f >? best_freq) then f else best_freq)
  end.

(** The search for the P-state of [best_freq], from index [i], with [n]
    iterations left. *)
Fixpoint find_pstate_from (n : nat) (i : Z) (best_freq : Z)
    (zcpu : zen_freq_cpu) : zen_freq_cpu :=
  match n with
  | O => zcpu
  | S n' =>
      if freq (pstate_at (pstates zcpu) i) =? best_freq
      then set_cur_pstate i zcpu
      else find_pstate_from n' (i + 1) best_freq zcpu
  end.

(** The thermal cap and the I/O boost applied to the scan's result when a
    performance target is installed.  [None] is a divide error. *)
Definition apply_target_limits (zcpu : zen_freq_cpu) (best_freq : Z)
  : option Z :=
  match perf_target zcpu with
  | None => Some best_freq
  | Some _ =>
      let capped :=
        match thermal_state zcpu with
        | ZEN_THERMAL_NORMAL => Some best_freq
        | _ =>
            match ZEN_PERF_TO_FREQ (thermal_throttle_perf zcpu)
                    (lowest_perf zcpu) (highest_perf zcpu)
                    (min_freq zcpu) (max_freq zcpu) with
            | None => None
            | Some limit_freq =>
                Some (if best_freq >? limit_freq then limit_freq
                      else best_freq)
            end
        end in
      match capped with
      | None => None
      | Some best_freq =>
          Some (if io_boost_active zcpu && (best_freq <? nominal_freq zcpu)
                then nominal_freq zcpu else best_freq)
      end
  end.

(** [zen_freq_fast_switch_lockless]: [zcpu] is [policy->driver_data],
    [online] tells whether the owning CPU can run the remote call and
    [msr] is its P-state control MSR.  The result is the returned
    frequency, the per-CPU data and the MSR; [None] is a divide error. *)
Definition zen_freq_fast_switch_lockless (policy : cpufreq_policy)
    (zcpu : option zen_freq_cpu) (target_freq : Z) (online : bool) (msr : Z)
  : option (Z * option zen_freq_cpu * Z) :=
  let best_freq := p_cur policy in
  match zcpu with
  | None => Some (0, None, msr)
  | Some zcpu =>
      match freq_table_rcu zcpu with
      | None => Some (0, Some zcpu, msr)
      | Some table =>
          let best_freq := freq_table_scan table target_freq best_freq in
          match apply_target_limits zcpu best_freq with
          | None => None
          | Some best_freq =>
              let zcpu :=
                find_pstate_from (Z.to_nat (num_pstates zcpu)) 0 best_freq
                  zcpu in
              let '(ret, (zcpu, msr)) :=
                smp_call_function_single online
                  (fun st => zen_write_pstate_local (fst st) (snd st))
                  (zcpu, msr) in
              if ret =? 0 then Some (best_freq, Some zcpu, msr)
              else Some (p_cur policy, Some zcpu, msr)
          end
      end
  end.

(** The frequency that a call of the selector returned, and the per-CPU
    data it left. *)
Definition returned_freq (r : option (Z * option zen_freq_cpu * Z))
  : option Z :=
  match r with
  | Some (f, _, _) => Some f
  | None => None
  end.


(** ** P-state discovery *)

Definition MSR_AMD_PSTATE_DEF_BASE : Z := 0xC0010063.

Definition zen_freq_calc_freq_from_pstate (pstate_val : Z) : Z :=
  let did := PSTATE_DEF_DID pstate_val in
  let fid := PSTATE_DEF_FID pstate_val in
  let div := PSTATE_DEF_CUR_DIV pstate_val in
  let freq_mhz :=
    if did =? 0 then u32 (fid * ZEN_FREQ_BASE)
    else u32 (fid * ZEN_FREQ_BASE * 4) / u32 (did + 4) in
  let freq_mhz :=
    if div >? 0 then freq_mhz / Z.shiftl 1 (div - 1) else freq_mhz in
  u32 (freq_mhz * ZEN_FREQ_MULTIPLIER).

(** The body of the discovery loop of [zen_freq_get_pstate_info]: [rdmsr]
    is [rdmsrl_safe_on_cpu] on the CPU, [None] when the read faults. *)
Definition pstate_info_body (rdmsr : Z -> option Z) (i : Z)
    (zcpu : zen_freq_cpu) : zen_freq_cpu :=
  match rdmsr (MSR_AMD_PSTATE_DEF_BASE + i) with
  | None => zcpu
  | Some pstate_val =>
      if Z.land pstate_val PSTATE_DEF_EN =? 0 then zcpu
      else
        let f := zen_freq_calc_freq_from_pstate pstate_val in
        let n := num_pstates zcpu in
        let old := pstate_at (pstates zcpu) n in
        let ps :=
          {| pstate := u8 i; freq := f; voltage := voltage old;
             vid := u8 (PSTATE_DEF_VID pstate_val);
             fid := u8 (PSTATE_DEF_FID pstate_val);
             did := u8 (PSTATE_DEF_DID pstate_val);
             div := u8 (PSTATE_DEF_CUR_DIV pstate_val);
             en := true; boost := false; safe := safe old |} in
        let '(mk_zcpu a b c d e mx mn h i' j k l m n' o p q r s t u w x) :=
          zcpu in
        mk_zcpu a (<[Z.to_nat n := ps]> b) (u32 (n + 1)) d e
                (if f >? mx then f else mx) (if f <? mn then f else mn)
                h i' j k l m n' o p q r s t u w x
  end.

(** The body of the loop that marks the boost states. *)
Definition mark_boost_body (i : Z) (zcpu : zen_freq_cpu) : zen_freq_cpu :=
  let ps := pstate_at (pstates zcpu) i in
  if freq ps >? nominal_freq zcpu
  then set_pstates (<[Z.to_nat i := set_boost true ps]> (pstates zcpu)) zcpu
  else zcpu.

(** [zen_freq_get_pstate_info]: [has_boost] is the outcome of the CPB
    feature test. *)
Definition zen_freq_get_pstate_info (rdmsr : Z -> option Z) (has_boost : bool)
    (zcpu : zen_freq_cpu) : Z * zen_freq_cpu :=
  let '(mk_zcpu a b _ d _ _ _ _ i j k l m n o p q r s t u w x) := zcpu in
  let zcpu := mk_zcpu a b 0 d 0 0 UINT_MAX 0 i j k l m n o p q r s t u w x in
  let zcpu := for_loop ZEN_MAX_PSTATES 0 (pstate_info_body rdmsr) zcpu in
  let '(mk_zcpu a b c d e mx mn _ _ _ _ l m n o p q r s t u w x) := zcpu in
  let zcpu := mk_zcpu a b c d e mx mn mx 255 0 128 l m n o p q r s t u w x in
  let zcpu :=
    if has_boost then
      let '(mk_zcpu a b c d e mx mn h i j k _ m n o p q r s t u w x) := zcpu in
      let zcpu :=
        mk_zcpu a b c d e mx mn h i j k true m n o p q r s t u w x in
      for_loop (Z.to_nat (num_pstates zcpu)) 0 mark_boost_body zcpu
    else zcpu in
  let '(mk_zcpu a b c d e mx mn h i j k l m n o p _ r _ t u _ x) := zcpu in
  let zcpu :=
    mk_zcpu a b c d e mx mn h i j k l m n o p ZEN_THERMAL_NORMAL r 255 t u
            ZEN_EPP_BALANCE x in
  (if num_pstates zcpu >? 0 then 0 else - ENODEV, zcpu).

(** The loop of [zen_freq_build_freq_table], counting [i] down. *)
Fixpoint build_freq_entries (i : nat) (arr : list zen_pstate)
  : list cpufreq_frequency_table :=
  match i with
  | O => []
  | S i' =>
      {| driver_data := Z.of_nat i';
         frequency := freq (pstate_at arr (Z.of_nat i')) |}
      :: build_freq_entries i' arr
  end.

Definition zen_freq_build_freq_table (alloc_ok : bool) (zcpu : zen_freq_cpu)
  : Z * zen_freq_cpu :=
  if alloc_ok then
    let table :=
      build_freq_entries (Z.to_nat (num_pstates zcpu)) (pstates zcpu)
      ++ [ {| driver_data := 0; frequency := CPUFREQ_TABLE_END |} ] in
    (0, set_freq_table_rcu (Some table) zcpu)
  else (- ENOMEM, zcpu).

(** ** cpufreq driver callbacks *)

(** [zen_freq_init_cpu]: the three booleans tell whether the allocations
    of the per-CPU data, of the frequency table and of the initial
    performance target succeed.  The result is the return value,
    [policy->driver_data] and the policy. *)
Definition zen_freq_init_cpu (mp : zen_module_params)
    (policy : cpufreq_policy) (rdmsr : Z -> option Z) (has_boost : bool)
    (alloc_zcpu alloc_table alloc_target : bool)
  : Z * option zen_freq_cpu * cpufreq_policy :=
  if negb alloc_zcpu then (- ENOMEM, None, policy)
  else
    let '(mk_zcpu _ b c d e f g h i j k l m n o p q r s t u w x) :=
      zero_zcpu in
    let zcpu :=
      mk_zcpu (p_cpu policy) b c d e f g h i j k l m 0 o p q r s t u w x in
    let '(ret, zcpu) := zen_freq_get_pstate_info rdmsr has_boost zcpu in
    if negb (ret =? 0) then (ret, None, policy)
    else
      let '(_, _, zcpu) := zen_voltage_check_all_pstates mp zcpu in
      let '(ret, zcpu) := zen_freq_build_freq_table alloc_table zcpu in
      if negb (ret =? 0) then (ret, None, policy)
      else
        match zen_perf_target_alloc alloc_target with
        | None => (- ENOMEM, None, policy)
        | Some target =>
            let zcpu := set_perf_target (Some target) zcpu in
            (0, Some zcpu,
             {| p_cpu := p_cpu policy; p_cur := p_cur policy;
                p_min := min_freq zcpu; p_max := max_freq zcpu |})
        end.

Definition zen_freq_verify_policy (policy : cpufreq_policy)
    (zcpu : option zen_freq_cpu) : Z * cpufreq_policy :=
  match zcpu with
  | None => (- EINVAL, policy)
  | Some zcpu =>
      let pmin :=
        if p_min policy <? min_freq zcpu then min_freq zcpu
        else p_min policy in
      let pmax :=
        if p_max policy >? max_freq zcpu then max_freq zcpu
        else p_max policy in
      let pmin := if pmin >? pmax then pmax else pmin in
      (0, {| p_cpu := p_cpu policy; p_cur := p_cur policy;
             p_min := pmin; p_max := pmax |})
  end.

(** [zen_freq_set_policy]: [None] is the divide error of
    [ZEN_FREQ_TO_PERF]; otherwise the return value and
    [policy->driver_data]. *)
Definition zen_freq_set_policy (policy : cpufreq_policy)
    (zcpu : option zen_freq_cpu) (alloc_ok : bool) (now : Z)
  : option (Z * option zen_freq_cpu) :=
  match zcpu with
  | None => Some (- EINVAL, None)
  | Some zcpu =>
      match ZEN_FREQ_TO_PERF (p_max policy) (min_freq zcpu) (max_freq zcpu)
              0 255,
            ZEN_FREQ_TO_PERF (p_min policy) (min_freq zcpu) (max_freq zcpu)
              0 255 with
      | Some desired, Some min =>
          Some (0,
                Some (fst (zen_perf_target_update zcpu desired min
                             (thermal_throttle_perf zcpu) (dynamic_epp zcpu)
                             alloc_ok now)))
      | _, _ => None
      end
  end.

(** ** P-state selection by index *)

(** [zen_freq_set_pstate_zero_ipi]: the remote call is made with
    [wait = 1].  The result is the return value, the per-CPU data (the
    pointer may be NULL) and the P-state MSR of the owning CPU. *)
Definition zen_freq_set_pstate_zero_ipi (zcpu : option zen_freq_cpu)
    (pstate : Z) (online : bool) (msr : Z) : Z * option zen_freq_cpu * Z :=
  match zcpu with
  | None => (- EINVAL, None, msr)
  | Some zcpu =>
      if pstate >=? num_pstates zcpu then (- EINVAL, Some zcpu, msr)
      else
        let zcpu := set_cur_pstate pstate zcpu in
        let '(ret, (zcpu, msr)) :=
          smp_call_function_single online
            (fun st => zen_write_pstate_local (fst st) (snd st))
            (zcpu, msr) in
        let zcpu :=
          if ret =? 0 then
            set_stats (set_transitions (u64 (transitions (stats zcpu) + 1))
                         (stats zcpu)) zcpu
          else zcpu in
        (ret, Some zcpu, msr)
  end.

Definition zen_freq_get_frequency (zcpu : zen_freq_cpu) (pstate : Z) : Z :=
  if pstate <? num_pstates zcpu then freq (pstate_at (pstates zcpu) pstate)
  else 0.

(** [zen_freq_get]: [zcpu] is the per-CPU pointer of the CPU asked for. *)
Definition zen_freq_get (zcpu : option zen_freq_cpu) : Z :=
  match zcpu with
  | None => 0
  | Some zcpu => cur_freq zcpu
  end.

(** [zen_freq_suspend] (and [zen_freq_cpu_offline], which has the same
    body): the outcome of the remote call is dropped. *)
Definition zen_freq_suspend (zcpu : option zen_freq_cpu) (online : bool)
    (msr : Z) : Z * option zen_freq_cpu * Z :=
  match zcpu with
  | None => (0, None, msr)
  | Some zcpu =>
      if num_pstates zcpu >? 0 then
        let zcpu := set_cur_pstate (u32 (num_pstates zcpu - 1)) zcpu in
        let '(_, (zcpu, msr)) :=
          smp_call_function_single online
            (fun st => zen_write_pstate_local (fst st) (snd st))
            (zcpu, msr) in
        (0, Some zcpu, msr)
      else (0, Some zcpu, msr)
  end.

Definition zen_freq_resume (policy : cpufreq_policy)
    (zcpu : option zen_freq_cpu) (alloc_ok : bool) (now : Z)
  : option (Z * option zen_freq_cpu) :=
  zen_freq_set_policy policy zcpu alloc_ok now.

(** ** Utilization callbacks: I/O wait boost and dynamic EPP *)

Definition s64 (x : Z) : Z := (x + 2 ^ 63) mod 2 ^ 64 - 2 ^ 63.

(** [<linux/jiffies.h>]: [time_after(a, b)] is [(long)((b) - (a)) < 0] on
    [unsigned long] operands. *)
Definition time_after (a b : Z) : bool := s64 (b - a) <? 0.

(** [<linux/time64.h>] *)
Definition NSEC_PER_USEC : Z := 1000.

Definition ZEN_EPP_POWERSAVE : Z := 0xFF.
Definition ZEN_EPP_PERFORMANCE : Z := 0x00.
Definition ZEN_UTIL_LOW_THRESHOLD : Z := 10.
Definition ZEN_UTIL_HIGH_THRESHOLD : Z := 80.
Definition ZEN_EPP_LOW_UTIL_DELAY_MS : Z := 500.
Definition ZEN_IO_BOOST_DURATION_MS : Z := 50.
Definition ZEN_IO_BOOST_MIN_UTIL : Z := 5.

Definition ZEN_FREQ_MODE_POWERSAVE : Z := 0.
Definition ZEN_FREQ_MODE_PERFORMANCE : Z := 2.
Definition ZEN_FREQ_MODE_USERSPACE : Z := 3.

(** The members of [struct zen_freq_cpu] that only the utilization
    callbacks use; they travel next to the record [zen_freq_cpu]. *)
Record zen_util_fields : Set := mk_util_fields {
  io_boost_expire : Z;
  last_io_wait : Z;
  util_low_since : Z
}.

Definition set_io_boost_expire (v : Z) (uf : zen_util_fields) :=
  let '(mk_util_fields _ b c) := uf in mk_util_fields v b c.
Definition set_last_io_wait (v : Z) (uf : zen_util_fields) :=
  let '(mk_util_fields a _ c) := uf in mk_util_fields a v c.
Definition set_util_low_since (v : Z) (uf : zen_util_fields) :=
  let '(mk_util_fields a b _) := uf in mk_util_fields a b v.

Definition set_io_boosts (v : Z) (s : zen_stats) : zen_stats :=
  let '(mk_stats a _ c d e) := s in mk_stats a v c d e.
Definition set_io_boost_active (v : bool) (z : zen_freq_cpu) :=
  let '(mk_zcpu a b c d e f g h i j k l m n o p q r s t _ w x) := z in
  mk_zcpu a b c d e f g h i j k l m n o p q r s t v w x.
Definition set_dynamic_epp (v : Z) (z : zen_freq_cpu) :=
  let '(mk_zcpu a b c d e f g h i j k l m n o p q r s t u _ x) := z in
  mk_zcpu a b c d e f g h i j k l m n o p q r s t u v x.

Definition zen_io_boost_should_boost (io_wait total : Z) : bool :=
  if total =? 0 then false
  else
    let io_util := u32 (u64 (io_wait * 100) / total) in
    io_util >=? ZEN_IO_BOOST_MIN_UTIL.

Section Tick.

(** The kernel's [msecs_to_jiffies], which depends on the tick rate, and
    the module parameters [mode] and [epp]. *)
Variable msecs_to_jiffies : Z -> Z.
Variable zen_freq_mode : Z.
Variable zen_freq_epp_enabled : bool.

(** [zen_io_boost_check]: [jiffies] is the tick counter read at entry,
    [io_wait] a [u64]. *)
Definition zen_io_boost_check (jiffies : Z)
    (st : zen_freq_cpu * zen_util_fields) (io_wait : Z)
  : zen_freq_cpu * zen_util_fields :=
  let '(zcpu, uf) := st in
  let now := jiffies in
  let delta := u64 (io_wait - last_io_wait uf) in
  let uf := set_last_io_wait io_wait uf in
  let '(zcpu, uf) :=
    if delta >? NSEC_PER_USEC * 100 then
      let zcpu := set_io_boost_active true zcpu in
      let uf :=
        set_io_boost_expire
          (u64 (now + msecs_to_jiffies ZEN_IO_BOOST_DURATION_MS)) uf in
      (set_stats (set_io_boosts (u64 (io_boosts (stats zcpu) + 1))
                    (stats zcpu)) zcpu,
       uf)
    else (zcpu, uf) in
  if io_boost_active zcpu && time_after now (io_boost_expire uf)
  then (set_io_boost_active false zcpu, uf)
  else (zcpu, uf).

(** The assignment [if (new_epp != zcpu->dynamic_epp) zcpu->dynamic_epp =
    new_epp]. *)
Definition store_dynamic_epp (new_epp : Z) (zcpu : zen_freq_cpu)
  : zen_freq_cpu :=
  if new_epp =? dynamic_epp zcpu then zcpu else set_dynamic_epp new_epp zcpu.

(** [zen_epp_update_dynamic]: [util] is a [u32] percentage. *)
Definition zen_epp_update_dynamic (jiffies : Z)
    (st : zen_freq_cpu * zen_util_fields) (util : Z)
  : zen_freq_cpu * zen_util_fields :=
  let '(zcpu, uf) := st in
  let now := jiffies in
  let mode_epp (uf : zen_util_fields) :=
    let new_epp :=
      if util >? ZEN_UTIL_HIGH_THRESHOLD then ZEN_EPP_PERFORMANCE
      else if zen_freq_mode =? ZEN_FREQ_MODE_POWERSAVE then ZEN_EPP_POWERSAVE
      else if zen_freq_mode =? ZEN_FREQ_MODE_PERFORMANCE
           then ZEN_EPP_PERFORMANCE
      else ZEN_EPP_BALANCE in
    (store_dynamic_epp new_epp zcpu, uf) in
  if util <? ZEN_UTIL_LOW_THRESHOLD then
    if util_low_since uf =? 0 then mode_epp (set_util_low_since now uf)
    else if time_after now
              (u64 (util_low_since uf
                    + msecs_to_jiffies ZEN_EPP_LOW_UTIL_DELAY_MS))
    then (store_dynamic_epp ZEN_EPP_POWERSAVE zcpu, uf)
    else mode_epp uf
  else mode_epp (set_util_low_since 0 uf).

(** [zen_freq_update_util_old], the callback of kernels before 6.6:
    [iowait], [util] and [max] are the members of the data it is handed
    ([u64]); [st] is [None] when [policy->driver_data] is NULL. *)
Definition zen_freq_update_util_old (jiffies : Z)
    (st : option (zen_freq_cpu * zen_util_fields)) (iowait util max : Z)
  : option (zen_freq_cpu * zen_util_fields) :=
  match st with
  | None => None
  | Some st =>
      let st :=
        if zen_freq_epp_enabled then zen_io_boost_check jiffies st iowait
        else st in
      if max >? 0 then
        let util_pct := u32 (u64 (util * 100) / max) in
        Some (zen_epp_update_dynamic jiffies st util_pct)
      else Some st
  end.

(** [zen_freq_update_util_new], the callback of kernels from 6.6 on: the
    time stamp is what it hands to [zen_io_boost_check]. *)
Definition zen_freq_update_util_new (jiffies : Z)
    (st : option (zen_freq_cpu * zen_util_fields)) (util max time : Z)
  : option (zen_freq_cpu * zen_util_fields) :=
  match st with
  | None => None
  | Some st =>
      let st :=
        if zen_freq_epp_enabled then zen_io_boost_check jiffies st time
        else st in
      if max >? 0 then
        let util_pct := u32 (u64 (util * 100) / max) in
        Some (zen_epp_update_dynamic jiffies st util_pct)
      else Some st
  end.

End Tick.

(** ** The [mode] attribute *)

Definition zen_freq_get_mode_string (mode : Z) : string :=
  if mode =? ZEN_FREQ_MODE_POWERSAVE then "powersave"
  else if mode =? ZEN_FREQ_MODE_BALANCE then "balance"
  else if mode =? ZEN_FREQ_MODE_PERFORMANCE then "performance"
  else if mode =? ZEN_FREQ_MODE_USERSPACE then "userspace"
  else "unknown".

(** [mode_show]: what [sprintf(buf, "%s\n", ...)] writes. *)
Definition mode_show (zen_freq_mode : Z) : string :=
  zen_freq_get_mode_string zen_freq_mode
  +:+ String.String (Ascii.ascii_of_nat 10) String.EmptyString.

(** [mode_store]: [buf] is the text written to the attribute, up to its
    terminating NUL, so that [strncmp(buf, word, n) == 0] with [n] the
    length of [word] says that [word] is a prefix of [buf].  [kstrtouint]
    is the kernel's parser in base 10, which stores a value only when it
    succeeds ([None] otherwise).  The result is the return value and the
    module parameter [zen_freq_mode] after the call. *)
Definition mode_store (kstrtouint : string -> option Z) (zen_freq_mode : Z)
    (buf : string) (count : Z) : Z * Z :=
  if String.prefix "powersave" buf then (count, ZEN_FREQ_MODE_POWERSAVE)
  else if String.prefix "balance" buf then (count, ZEN_FREQ_MODE_BALANCE)
  else if String.prefix "performance" buf
       then (count, ZEN_FREQ_MODE_PERFORMANCE)
  else
    match kstrtouint buf with
    | Some v =>
        if v >? ZEN_FREQ_MODE_USERSPACE then (- EINVAL, v) else (count, v)
    | None => (- EINVAL, zen_freq_mode)
    end.

(** ** The thermal transition table, as the specification words it

    Section 4.4 of the specification, over mathematical integers, kept
    apart from [zen_thermal_check_cpu] to be compared with it. *)
Definition spec_thermal_transition (soft hard hysteresis safe_limit : Z)
    (s : zen_thermal_state) (temp : Z) : zen_thermal_state :=
  match s with
  | ZEN_THERMAL_NORMAL =>
      if hard <=? temp then ZEN_THERMAL_HARD_THROTTLE
      else if soft <=? temp then ZEN_THERMAL_SOFT_THROTTLE
      else ZEN_THERMAL_NORMAL
  | ZEN_THERMAL_SOFT_THROTTLE =>
      if hard <=? temp then ZEN_THERMAL_HARD_THROTTLE
      else if temp <? soft - hysteresis then ZEN_THERMAL_RECOVERY
      else ZEN_THERMAL_SOFT_THROTTLE
  | ZEN_THERMAL_HARD_THROTTLE =>
      if temp <? hard - hysteresis then ZEN_THERMAL_SOFT_THROTTLE
      else ZEN_THERMAL_HARD_THROTTLE
  | ZEN_THERMAL_RECOVERY =>
      if temp <? safe_limit then ZEN_THERMAL_NORMAL
      else if soft <=? temp then ZEN_THERMAL_SOFT_THROTTLE
      else ZEN_THERMAL_RECOVERY
  end.


(** ** Properties stated by the specification *)

(** The invariant of section 3 on a performance target of a core. *)
Definition perf_target_valid (zcpu : zen_freq_cpu) (t : zen_perf_target)
  : Prop :=
  (min_perf t <= desired_perf t <= max_perf t)
  /\ (lowest_perf zcpu <= min_perf t <= highest_perf zcpu)
  /\ (lowest_perf zcpu <= max_perf t <= highest_perf zcpu).


(** ** Concrete inputs *)

(** A thermal status MSR content that holds a valid reading of [temp]. *)
Definition therm_sample (temp : Z) : option Z :=
  Some (Z.lor THERM_STATUS_VALID (Z.shiftl temp 16)).

(** A P-state definition MSR content: enabled, with the given codes. *)
Definition example_msr (vid fid : Z) : Z :=
  Z.lor PSTATE_DEF_EN (Z.lor (Z.shiftl vid 11) fid).

(** A CPU with three enabled P-states: 700 MHz at VID 3 (1475 mV),
    500 MHz at VID 8 (1350 mV) and 300 MHz at VID 20 (1050 mV); the other
    five definition MSRs read as disabled. *)
Definition example_rdmsr (addr : Z) : option Z :=
  if addr =? MSR_AMD_PSTATE_DEF_BASE then Some (example_msr 3 28)
  else if addr =? MSR_AMD_PSTATE_DEF_BASE + 1 then Some (example_msr 8 20)
  else if addr =? MSR_AMD_PSTATE_DEF_BASE + 2 then Some (example_msr 20 12)
  else Some 0.

Definition example_policy : cpufreq_policy := mk_policy 0 0 0 0.

(** That CPU after [zen_freq_init_cpu] under the module parameters [mp]. *)
Definition example_zcpu (mp : zen_module_params) : zen_freq_cpu :=
  default zero_zcpu
    (zen_freq_init_cpu mp example_policy example_rdmsr false true true true).1.2.

(** The same CPU once a poll at 95 degrees has put it in hard throttle. *)
Definition example_hard_zcpu : zen_freq_cpu :=
  zen_thermal_check_cpu default_params (example_zcpu default_params)
    (therm_sample 95) 0.

(** The same CPU once a poll at 85 degrees has put it in soft throttle. *)
Definition example_soft_zcpu : zen_freq_cpu :=
  zen_thermal_check_cpu default_params (example_zcpu default_params)
    (therm_sample 85) 0.

(** Module parameters with a maximum performance of 200 and with a
    voltage ceiling of 1000 mV. *)
Definition params_max_perf_200 : zen_module_params :=
  {| zen_freq_max_perf := 200;
     zen_freq_soft_temp := ZEN_THERMAL_SOFT_LIMIT;
     zen_freq_hard_temp := ZEN_THERMAL_HARD_LIMIT;
     zen_freq_voltage_max := ZEN_VOLTAGE_MAX_SAFE |}.


(** Twelve polls at 89 degrees followed by three at 77 degrees. *)
Definition example_soft_polls : list (option Z * Z) :=
  replicate 12 (therm_sample 89, 0) ++ replicate 3 (therm_sample 77, 0).

(** ** Invariants used in the proofs *)

(** What the discovery loop has established after the MSRs below [k]. *)
Definition discovered (rdmsr : Z -> option Z) (k : Z) (z : zen_freq_cpu)
  : Prop :=
  0 <= num_pstates z <= k
  /\ length (pstates z) = ZEN_MAX_PSTATES
  /\ (0 < num_pstates z <->
      exists i v, 0 <= i < k /\ rdmsr (MSR_AMD_PSTATE_DEF_BASE + i) = Some v
                  /\ Z.land v PSTATE_DEF_EN <> 0)
  /\ 0 <= max_freq z <= 775000
  /\ forall j, 0 <= j < num_pstates z ->
       en (pstate_at (pstates z) j) = true
       /\ boost (pstate_at (pstates z) j) = false
       /\ min_freq z <= freq (pstate_at (pstates z) j) <= max_freq z.

(** The members of the per-CPU data that the thermal guard does not
    write. *)
Definition non_thermal_fields (z : zen_freq_cpu) :=
  (cpu z, pstates z, num_pstates z, boost_states z, num_boost z,
   (max_freq z, min_freq z, nominal_freq z),
   (highest_perf z, lowest_perf z, nominal_perf z),
   (boost_supported z, cur_pstate z, cur_freq z),
   (perf_target z, freq_table_rcu z, io_boost_active z, dynamic_epp z)).

(** The counters of the statistics other than [thermal_events]. *)
Definition non_thermal_stats (z : zen_freq_cpu) :=
  (transitions (stats z), io_boosts (stats z), voltage_clamps (stats z),
   total_time_ns (stats z)).

Arguments u8 : simpl never.
Arguments u32 : simpl never.
Arguments u64 : simpl never.
Arguments s32 : simpl never.

(** * Proofs *)

(** ** Machine integers and the temperature sensor *)

Lemma u8_range x : 0 <= u8 x <= 255.
Proof.
  unfold u8. change (2 ^ 8) with 256.
  pose proof (Z.mod_pos_bound x 256 ltac:(lia)). lia.
Qed.

Lemma u8_small x : 0 <= x <= 255 -> u8 x = x.
Proof. intros. unfold u8. apply Z.mod_small. lia. Qed.

Lemma u32_small x : 0 <= x < 2 ^ 32 -> u32 x = x.
Proof. intros. unfold u32. apply Z.mod_small. lia. Qed.

Lemma read_temperature_range therm : 0 <= zen_read_temperature therm <= 127.
Proof.
  destruct therm as [v|]; simpl; [|lia].
  destruct (Z.land v THERM_STATUS_VALID =? 0); [lia|].
  unfold THERM_STATUS_TEMP.
  change (Z.land (Z.shiftr v 16) 0x7F)
    with (Z.land (Z.shiftr v 16) (Z.ones 7)).
  rewrite Z.land_ones by lia.
  change (2 ^ 7) with 128.
  pose proof (Z.mod_pos_bound (Z.shiftr v 16) 128 ltac:(lia)). lia.
Qed.

Lemma read_temperature_sample t :
  0 <= t <= 127 -> zen_read_temperature (therm_sample t) = t.
Proof.
  intros Ht. unfold therm_sample, zen_read_temperature.
  destruct (Z.land _ THERM_STATUS_VALID =? 0) eqn:E.
  - apply Z.eqb_eq in E.
    assert (Z.testbit (Z.land (Z.lor THERM_STATUS_VALID (Z.shiftl t 16))
                         THERM_STATUS_VALID) 31 = true) as Hb.
    { rewrite Z.land_spec, Z.lor_spec. reflexivity. }
    rewrite E in Hb. discriminate.
  - unfold THERM_STATUS_TEMP.
    rewrite Z.shiftr_lor, Z.shiftr_shiftl_l by lia.
    change (16 - 16) with 0. rewrite Z.shiftl_0_r.
    rewrite Z.land_lor_distr_l.
    change 0x7F with (Z.ones 7). rewrite !Z.land_ones by lia.
    change (Z.shiftr THERM_STATUS_VALID 16 mod 2 ^ 7) with 0.
    rewrite Z.lor_0_l. apply Z.mod_small. lia.
Qed.

(** ** Thermal guard *)

Lemma thermal_check_invalid mp zcpu therm indet :
  zen_read_temperature therm = 0 ->
  zen_thermal_check_cpu mp zcpu therm indet = zcpu.
Proof. intros H. unfold zen_thermal_check_cpu. rewrite H. reflexivity. Qed.

Lemma set_last_temp_fields t z :
  thermal_state (set_last_temp t z) = thermal_state z
  /\ thermal_throttle_perf (set_last_temp t z) = thermal_throttle_perf z
  /\ lowest_perf (set_last_temp t z) = lowest_perf z.
Proof. destruct z; auto. Qed.

Lemma set_thermal_integral_fields v z :
  thermal_state (set_thermal_integral v z) = thermal_state z
  /\ thermal_throttle_perf (set_thermal_integral v z)
     = thermal_throttle_perf z
  /\ lowest_perf (set_thermal_integral v z) = lowest_perf z.
Proof. destruct z; auto. Qed.

(** The end of [zen_thermal_check_cpu]: the ceiling and the state it
    stores. *)
Lemma thermal_check_store ns v z :
  let z' :=
    set_thermal_state ns
      (if v =? thermal_throttle_perf z then z
       else
         set_stats
           (set_thermal_events
              (u64 (thermal_events
                      (stats (set_thermal_throttle_perf v z)) + 1))
              (stats (set_thermal_throttle_perf v z)))
           (set_thermal_throttle_perf v z)) in
  thermal_state z' = ns /\ thermal_throttle_perf z' = v
  /\ lowest_perf z' = lowest_perf z.
Proof.
  cbv zeta. destruct (v =? thermal_throttle_perf z) eqn:E.
  - apply Z.eqb_eq in E. destruct z; cbn in *. auto.
  - destruct z; cbn. auto.
Qed.

Ltac thermal_cases :=
  repeat (match goal with
          | |- context [if ?c then _ else _] => destruct c eqn:?
          end; cbv beta iota).

Ltac case_ifs :=
  repeat match goal with
         | |- context [if ?c then _ else _] => destruct c eqn:?; simpl
         end.

(** The state the code moves to is the one the table of the
    specification gives, for every valid sample. *)
Lemma thermal_check_state mp zcpu therm indet :
  3 <= zen_freq_soft_temp mp < 2 ^ 32 ->
  3 <= zen_freq_hard_temp mp < 2 ^ 32 ->
  zen_read_temperature therm <> 0 ->
  thermal_state (zen_thermal_check_cpu mp zcpu therm indet)
  = spec_thermal_transition (zen_freq_soft_temp mp) (zen_freq_hard_temp mp)
      ZEN_THERMAL_HYSTERESIS ZEN_THERMAL_SAFE_LIMIT
      (thermal_state zcpu) (zen_read_temperature therm).
Proof.
  intros Hs Hh Hv. unfold zen_thermal_check_cpu.
  set (temp := zen_read_temperature therm) in *.
  destruct (temp =? 0) eqn:E; [apply Z.eqb_eq in E; contradiction|].
  unfold ZEN_THERMAL_HYSTERESIS in *.
  rewrite !u32_small by lia.
  unfold spec_thermal_transition. rewrite !Z.geb_leb. cbv zeta.
  rewrite (proj1 (set_last_temp_fields temp zcpu)).
  destruct (zen_thermal_pi_controller mp (set_last_temp temp zcpu) temp)
    as [perf zpi].
  destruct (thermal_state zcpu); cbv beta iota;
    repeat (match goal with
            | |- context [if ?c then ?a else _] =>
                lazymatch a with
                | (_, _) => destruct c
                | ZEN_THERMAL_NORMAL => destruct c
                | ZEN_THERMAL_SOFT_THROTTLE => destruct c
                | ZEN_THERMAL_HARD_THROTTLE => destruct c
                | ZEN_THERMAL_RECOVERY => destruct c
                end
            end; cbv beta iota);
    apply thermal_check_store.
Qed.



Lemma for_loop_invariant {S : Type} (P : S -> Prop) (body : Z -> S -> S) :
  (forall i s, P s -> P (body i s)) ->
  forall n i s, P s -> P (for_loop n i body s).
Proof.
  intros Hbody n. induction n as [|n IH]; intros i s Hs; simpl; auto.
Qed.

Lemma pstate_info_body_num_boost rdmsr i zcpu :
  num_boost (pstate_info_body rdmsr i zcpu) = num_boost zcpu.
Proof.
  unfold pstate_info_body. destruct zcpu; simpl.
  destruct (rdmsr _); [|reflexivity]. case_ifs; reflexivity.
Qed.

Lemma mark_boost_body_fields i zcpu :
  lowest_perf (mark_boost_body i zcpu) = lowest_perf zcpu
  /\ highest_perf (mark_boost_body i zcpu) = highest_perf zcpu
  /\ num_boost (mark_boost_body i zcpu) = num_boost zcpu.
Proof. unfold mark_boost_body. destruct zcpu; simpl. case_ifs; auto. Qed.

(** What [zen_freq_get_pstate_info] leaves in the fields that the thermal
    guard and the performance targets rely on. *)
Lemma get_pstate_info_fields rdmsr has_boost zcpu :
  let z := (zen_freq_get_pstate_info rdmsr has_boost zcpu).2 in
  thermal_state z = ZEN_THERMAL_NORMAL /\ thermal_throttle_perf z = 255
  /\ lowest_perf z = 0 /\ highest_perf z = 255 /\ num_boost z = 0.
Proof.
  unfold zen_freq_get_pstate_info. destruct zcpu.
  match goal with |- context [for_loop ?n0 ?i0 ?b0 ?s0] =>
    pose proof (for_loop_invariant (fun z => num_boost z = 0) b0
       (fun i s H => eq_trans (pstate_info_body_num_boost rdmsr i s) H)
       n0 i0 s0 eq_refl) as H1;
    destruct (for_loop n0 i0 b0 s0) end.
  simpl in H1. subst.
  destruct has_boost.
  - match goal with |- context [for_loop ?n0 ?i0 ?b0 ?s0] =>
      pose proof (for_loop_invariant
                    (fun z => lowest_perf z = 0 /\ highest_perf z = 255
                              /\ num_boost z = 0) b0) as H2;
      specialize (H2 (fun i s H =>
                        ltac:(destruct (mark_boost_body_fields i s)
                                as (-> & -> & ->); exact H))
                     n0 i0 s0 (conj eq_refl (conj eq_refl eq_refl)));
      destruct (for_loop n0 i0 b0 s0) end.
    simpl in *. intuition.
  - simpl. intuition.
Qed.



(** What a poll stores as the ceiling when the state machine leaves
    SoftThrottle for Recovery: the indeterminate content of
    [new_max_perf]. *)
Lemma thermal_check_soft_to_recovery mp zcpu therm indet :
  thermal_state zcpu = ZEN_THERMAL_SOFT_THROTTLE ->
  zen_read_temperature therm <> 0 ->
  zen_read_temperature therm < zen_freq_hard_temp mp ->
  zen_read_temperature therm
    < u32 (zen_freq_soft_temp mp - ZEN_THERMAL_HYSTERESIS) ->
  let zcpu' := zen_thermal_check_cpu mp zcpu therm indet in
  thermal_state zcpu' = ZEN_THERMAL_RECOVERY
  /\ thermal_throttle_perf zcpu' = indet.
Proof.
  intros Hst Hv Hh Hs. unfold zen_thermal_check_cpu.
  set (temp := zen_read_temperature therm) in *.
  destruct (temp =? 0) eqn:E; [apply Z.eqb_eq in E; contradiction|].
  cbv zeta. rewrite (proj1 (set_last_temp_fields temp zcpu)), Hst.
  cbv beta iota.
  destruct (temp >=? _) eqn:E1; [rewrite Z.geb_leb in E1; lia|].
  destruct (temp <? _) eqn:E2; [|lia].
  cbv beta iota.
  destruct (thermal_check_store ZEN_THERMAL_RECOVERY indet
              (set_thermal_integral 0 (set_last_temp temp zcpu)))
    as (H1 & H2 & _).
  split; [exact H1 | exact H2].
Qed.

(** C10.  In SoftThrottle, a valid sample of 76 degrees against the soft
    limit of 80 takes the branch to Recovery, which leaves [new_max_perf]
    unassigned: the ceiling that the poll stores is whatever byte the
    variable holds, here 7 in one run and 200 in another from the same
    prior state, prior ceiling and temperature. *)
Theorem thermal_recovery_ceiling_unassigned :
  let zcpu := example_soft_zcpu in
  thermal_throttle_perf
    (zen_thermal_check_cpu default_params zcpu (therm_sample 76) 7) = 7
  /\ thermal_throttle_perf
       (zen_thermal_check_cpu default_params zcpu (therm_sample 76) 200) = 200
  /\ forall indet,
       thermal_throttle_perf
         (zen_thermal_check_cpu default_params zcpu (therm_sample 76) indet)
       = indet.
Proof.
  assert (forall indet,
            thermal_throttle_perf
              (zen_thermal_check_cpu default_params example_soft_zcpu
                 (therm_sample 76) indet) = indet) as H.
  { intros indet.
    apply thermal_check_soft_to_recovery; vm_compute; congruence. }
  cbv zeta. auto.
Qed.

Lemma pi_controller_range mp zcpu temp :
  0 <= (zen_thermal_pi_controller mp zcpu temp).1 <= 255.
Proof.
  unfold zen_thermal_pi_controller. cbv zeta. unfold fst.
  destruct (_ >? 0); [apply u8_range | lia].
Qed.

Lemma pi_controller_fields mp zcpu temp :
  let z := (zen_thermal_pi_controller mp zcpu temp).2 in
  lowest_perf z = lowest_perf zcpu
  /\ thermal_throttle_perf z = thermal_throttle_perf zcpu
  /\ thermal_state z = thermal_state zcpu.
Proof. destruct zcpu. simpl. auto. Qed.

(** One poll keeps the ceiling a byte and leaves [lowest_perf] alone. *)
Lemma thermal_check_ceiling_range mp zcpu therm indet :
  0 <= thermal_throttle_perf zcpu <= 255 ->
  0 <= lowest_perf zcpu <= 255 ->
  0 <= indet <= 255 ->
  let zcpu' := zen_thermal_check_cpu mp zcpu therm indet in
  0 <= thermal_throttle_perf zcpu' <= 255
  /\ lowest_perf zcpu' = lowest_perf zcpu.
Proof.
  intros Hc Hl Hi. unfold zen_thermal_check_cpu.
  set (temp := zen_read_temperature therm).
  destruct (temp =? 0); [auto|].
  pose proof (pi_controller_range mp (set_last_temp temp zcpu) temp) as Hpi.
  pose proof (pi_controller_fields mp (set_last_temp temp zcpu) temp) as Hpf.
  destruct (zen_thermal_pi_controller mp (set_last_temp temp zcpu) temp)
    as [perf zpi].
  pose proof (u8_range (zen_freq_max_perf mp)).
  pose proof (u8_range (Z.min (thermal_throttle_perf zcpu + 10) 255)).
  destruct zcpu; destruct zpi; simpl in *.
  destruct Hpf as (? & ? & ?); subst.
  match goal with
  | |- context [match ?s with ZEN_THERMAL_NORMAL => _ | _ => _ end] =>
      destruct s
  end; case_ifs; split; (reflexivity || lia).
Qed.

(** A poll in HardThrottle raises the ceiling only when the temperature is
    below the hard limit minus the hysteresis. *)
Lemma thermal_check_hard_widen mp zcpu therm indet :
  thermal_state zcpu = ZEN_THERMAL_HARD_THROTTLE ->
  lowest_perf zcpu <= thermal_throttle_perf zcpu ->
  thermal_throttle_perf zcpu
    < thermal_throttle_perf (zen_thermal_check_cpu mp zcpu therm indet) ->
  zen_read_temperature therm <> 0
  /\ zen_read_temperature therm
       < u32 (zen_freq_hard_temp mp - ZEN_THERMAL_HYSTERESIS).
Proof.
  intros Hst Hl. unfold zen_thermal_check_cpu.
  set (temp := zen_read_temperature therm).
  destruct (temp =? 0) eqn:E; [lia|].
  cbv zeta. rewrite (proj1 (set_last_temp_fields temp zcpu)), Hst.
  cbv beta iota.
  destruct (temp <? _) eqn:E1; [lia|].
  cbv beta iota.
  destruct (thermal_check_store ZEN_THERMAL_HARD_THROTTLE
              (lowest_perf (set_last_temp temp zcpu))
              (set_last_temp temp zcpu)) as (_ & H2 & _).
  cbv zeta in H2. intros Hw.
  rewrite (proj2 (proj2 (set_last_temp_fields temp zcpu))) in H2, Hw.
  change (default indet (Some (lowest_perf zcpu))) with (lowest_perf zcpu)
    in Hw.
  rewrite H2 in Hw. lia.
Qed.

Lemma thermal_polls_ceiling_range mp polls : forall zcpu,
  lowest_perf zcpu = 0 ->
  0 <= thermal_throttle_perf zcpu <= 255 ->
  Forall (fun p => 0 <= p.2 <= 255) polls ->
  Forall (fun z => 0 <= thermal_throttle_perf z <= 255 /\ lowest_perf z = 0)
    (thermal_polls mp zcpu polls).
Proof.
  induction polls as [|[therm indet] polls IH]; intros zcpu Hl Hc Hp; simpl.
  - constructor.
  - inversion Hp as [|? ? Hp1 Hp2]; subst. simpl in Hp1.
    destruct (thermal_check_ceiling_range mp zcpu therm indet)
      as [Hc' Hl']; [lia..|].
    rewrite Hl in Hl'.
    constructor; [auto|]. apply IH; assumption.
Qed.

(** C6, amended.  Along every sequence of polls the ceiling stays within
    0..255, hence at most [zen_freq_max_perf] when that parameter is at
    least 255 (its default); and a poll taken in HardThrottle raises the
    ceiling only when the temperature is below the hard limit minus the
    hysteresis. *)
Theorem thermal_ceiling_bounded_by_255 mp zcpu polls :
  lowest_perf zcpu = 0 ->
  0 <= thermal_throttle_perf zcpu <= 255 ->
  Forall (fun p => 0 <= p.2 <= 255) polls ->
  Forall (fun z =>
            0 <= thermal_throttle_perf z <= 255
            /\ lowest_perf z = 0
            /\ (255 <= zen_freq_max_perf mp ->
                thermal_throttle_perf z <= zen_freq_max_perf mp))
    (thermal_polls mp zcpu polls)
  /\ (forall therm indet,
        thermal_state zcpu = ZEN_THERMAL_HARD_THROTTLE ->
        thermal_throttle_perf zcpu
          < thermal_throttle_perf
              (zen_thermal_check_cpu mp zcpu therm indet) ->
        zen_read_temperature therm <> 0
        /\ zen_read_temperature therm
             < u32 (zen_freq_hard_temp mp - ZEN_THERMAL_HYSTERESIS)).
Proof.
  intros Hl Hc Hp. split.
  - eapply Forall_impl;
      [apply thermal_polls_ceiling_range; eassumption|].
    simpl. intros z (? & ?). repeat split; lia.
  - intros therm indet Hst Hw.
    eapply thermal_check_hard_widen; [exact Hst | lia | exact Hw].
Qed.

Lemma thermal_ceiling_bounded_by_255_witness :
  Forall (fun z =>
            0 <= thermal_throttle_perf z <= 255
            /\ lowest_perf z = 0
            /\ (255 <= zen_freq_max_perf default_params ->
                thermal_throttle_perf z <= zen_freq_max_perf default_params))
    (thermal_polls default_params (example_zcpu default_params)
       example_soft_polls).
Proof.
  apply (thermal_ceiling_bounded_by_255 default_params
           (example_zcpu default_params) example_soft_polls).
  - reflexivity.
  - vm_compute. split; discriminate.
  - repeat constructor; vm_compute; discriminate.
Defined.

(** C6 as stated fails.  With [zen_freq_max_perf] set to 200 the ceiling
    of a freshly initialised core is 255; and under the default limits
    twelve polls at 89 degrees followed by three at 77 degrees end with
    the ceiling going from 254 up to 255 on a poll at 77 degrees, which is
    not below the soft limit minus the hysteresis (77). *)
Lemma thermal_ceiling_counterexample :
  ~ (thermal_throttle_perf (example_zcpu params_max_perf_200)
     <= zen_freq_max_perf params_max_perf_200)
  /\ (let zs :=
        thermal_polls default_params (example_zcpu default_params)
          example_soft_polls in
      map thermal_throttle_perf (drop 11 zs) = [254; 254; 254; 255]
      /\ map thermal_state (drop 11 zs)
         = replicate 4 ZEN_THERMAL_SOFT_THROTTLE
      /\ map last_temp (drop 11 zs) = [89; 77; 77; 77]
      /\ ~ (77 < zen_freq_soft_temp default_params - ZEN_THERMAL_HYSTERESIS)).
Proof.
  split; [vm_compute; intros H; apply H; reflexivity|].
  cbv zeta. repeat split; try (vm_compute; reflexivity).
  vm_compute. discriminate.
Qed.

(** ** Voltage safety verification *)

(** The voltages that [ZEN_VID_TO_MV] yields lie 25 mV apart: no VID code
    stands for 1460 mV. *)
Lemma vid_to_mv_not_1460 v : 0 <= v <= 255 -> ZEN_VID_TO_MV v <> 1460.
Proof.
  intros Hv. unfold ZEN_VID_TO_MV, u32. change (2 ^ 32) with 4294967296.
  destruct (Z_le_gt_dec v 62).
  - rewrite Z.mod_small by lia. lia.
  - replace (1550 - v * 25) with ((1550 - v * 25 + 4294967296)
                                   + (-1) * 4294967296) by lia.
    rewrite Z.mod_add by lia. rewrite Z.mod_small by lia. lia.
Qed.

(** C8.  For a P-state whose voltage, derived from its VID code, exceeds the
    configured ceiling: a boost state within [ZEN_VOLTAGE_BOOST_MAX] is
    accepted (the verifier returns true and leaves the safe mark alone,
    and the loop over [pstates] leaves the clamp counter alone); any other
    is marked unsafe, and the loop over [pstates] sets [has_unsafe] and
    adds one to [voltage_clamps]. *)
Theorem voltage_verifier_policy mp ps :
  let v := ZEN_VID_TO_MV (vid ps) in
  zen_freq_voltage_max mp < v ->
  (boost ps = true -> v <= ZEN_VOLTAGE_BOOST_MAX ->
   zen_voltage_verify_pstate mp ps = (true, set_voltage v ps)
   /\ forall i has_unsafe zcpu,
        pstate_at (pstates zcpu) i = ps ->
        check_pstate_body mp i (has_unsafe, zcpu)
        = (has_unsafe,
           set_pstates (<[Z.to_nat i := set_voltage v ps]> (pstates zcpu))
             zcpu))
  /\ (boost ps = false \/ ZEN_VOLTAGE_BOOST_MAX < v ->
      zen_voltage_verify_pstate mp ps
      = (false, set_safe false (set_voltage v ps))
      /\ forall i has_unsafe zcpu,
           pstate_at (pstates zcpu) i = ps ->
           let r := check_pstate_body mp i (has_unsafe, zcpu) in
           r.1 = true
           /\ voltage_clamps (stats r.2)
              = u64 (voltage_clamps (stats zcpu) + 1)
           /\ pstates r.2
              = <[Z.to_nat i := set_safe false (set_voltage v ps)]>
                  (pstates zcpu)).
Proof.
  intros v Hv.
  assert (boost (set_voltage v ps) = boost ps) as Hb by (destruct ps; auto).
  split.
  - intros Hboost Hext.
    assert (zen_voltage_verify_pstate mp ps = (true, set_voltage v ps)) as E.
    { unfold zen_voltage_verify_pstate. fold v. rewrite Hb, Hboost.
      destruct (v >? _) eqn:E1; [|lia].
      destruct (v <=? _) eqn:E2; [reflexivity|lia]. }
    split; [exact E|].
    intros i has_unsafe zcpu Hi. unfold check_pstate_body.
    rewrite Hi, E. reflexivity.
  - intros Hrej.
    assert (zen_voltage_verify_pstate mp ps
            = (false, set_safe false (set_voltage v ps))) as E.
    { unfold zen_voltage_verify_pstate. fold v. rewrite Hb.
      destruct (v >? _) eqn:E1; [|lia].
      destruct (boost ps); simpl; [|reflexivity].
      destruct (v <=? _) eqn:E2; [|reflexivity].
      destruct Hrej; [discriminate|lia]. }
    split; [exact E|].
    intros i has_unsafe zcpu Hi. unfold check_pstate_body.
    rewrite Hi, E. destruct zcpu as [? ? ? ? ? ? ? ? ? ? ? ? ? ? ? ? ? ? ? ? ? ? st].
    destruct st. simpl. auto.
Qed.

(** At the default ceiling of 1450 mV, VID 3 (1475 mV): a boost state is
    accepted, a non-boost state is marked unsafe and counted. *)
Lemma voltage_verifier_policy_witness :
  zen_voltage_verify_pstate default_params
    (mk_pstate 0 700000 0 3 28 0 1 true true false)
  = (true, mk_pstate 0 700000 1475 3 28 0 1 true true false)
  /\ zen_voltage_verify_pstate default_params
       (mk_pstate 0 700000 0 3 28 0 1 true false true)
     = (false, mk_pstate 0 700000 1475 3 28 0 1 true false false)
  /\ voltage_clamps (stats (example_zcpu default_params)) = 1.
Proof.
  split; [|split].
  - apply (voltage_verifier_policy default_params
             (mk_pstate 0 700000 0 3 28 0 1 true true false));
      [reflexivity | reflexivity | discriminate].
  - apply (voltage_verifier_policy default_params
             (mk_pstate 0 700000 0 3 28 0 1 true false true));
      [reflexivity | left; reflexivity].
  - reflexivity.
Defined.

(** ** Performance target *)

(** C5.  Two successive publishes on a core: each target carries the clock
    value of its publish, but both carry the same sequence number,
    [cur_pstate + 1]; the later one is not greater. *)
Theorem perf_target_sequence_repeats zcpu d1 m1 x1 e1 now1 d2 m2 x2 e2 now2 :
  let z1 := (zen_perf_target_update zcpu d1 m1 x1 e1 true now1).1 in
  let z2 := (zen_perf_target_update z1 d2 m2 x2 e2 true now2).1 in
  exists t1 t2,
    perf_target z1 = Some t1 /\ perf_target z2 = Some t2
    /\ timestamp t1 = u64 now1 /\ timestamp t2 = u64 now2
    /\ sequence t1 = u32 (cur_pstate zcpu + 1)
    /\ sequence t2 = sequence t1.
Proof.
  destruct zcpu. simpl. eexists _, _. repeat split.
Qed.

Lemma freq_to_perf_value f minf maxf :
  0 <= minf <= f -> f <= maxf -> minf < maxf ->
  255 * (maxf - minf) < 2 ^ 32 ->
  ZEN_FREQ_TO_PERF f minf maxf 0 255
  = Some (255 * (f - minf) / (maxf - minf))
  /\ 0 <= 255 * (f - minf) / (maxf - minf) <= 255.
Proof.
  intros H1 H2 H3 H4.
  assert (0 <= 255 * (f - minf) / (maxf - minf) <= 255) as Hq.
  { split.
    - apply Z.div_pos; lia.
    - apply Z.div_le_upper_bound; nia. }
  split; [|exact Hq].
  unfold ZEN_FREQ_TO_PERF.
  rewrite (u32_small (maxf - minf)) by lia.
  destruct (maxf - minf =? 0) eqn:E; [lia|].
  change (255 - 0) with 255.
  rewrite (u32_small 255) by (change (2 ^ 32) with 4294967296; lia).
  rewrite (u32_small (f - minf)) by lia.
  rewrite (u32_small (255 * (f - minf))) by lia.
  rewrite u32_small; [reflexivity|lia].
Qed.

(** The voltage check touches the P-state arrays and the statistics
    only. *)
Lemma voltage_check_fields mp zcpu :
  let z := (zen_voltage_check_all_pstates mp zcpu).2 in
  lowest_perf z = lowest_perf zcpu /\ highest_perf z = highest_perf zcpu
  /\ thermal_state z = thermal_state zcpu
  /\ thermal_throttle_perf z = thermal_throttle_perf zcpu.
Proof.
  unfold zen_voltage_check_all_pstates.
  set (P := fun acc : bool * zen_freq_cpu =>
              lowest_perf acc.2 = lowest_perf zcpu
              /\ highest_perf acc.2 = highest_perf zcpu
              /\ thermal_state acc.2 = thermal_state zcpu
              /\ thermal_throttle_perf acc.2 = thermal_throttle_perf zcpu).
  assert (forall n i acc, P acc -> P (for_loop n i (check_pstate_body mp) acc))
    as H1.
  { intros n i acc. apply for_loop_invariant. clear.
    intros i [hu z] HP. unfold check_pstate_body.
    destruct (zen_voltage_verify_pstate _ _) as [[] ps];
      destruct z; exact HP. }
  assert (forall n i acc,
            P acc -> P (for_loop n i (check_boost_state_body mp) acc)) as H2.
  { intros n i acc. apply for_loop_invariant. clear.
    intros i [hu z] HP. unfold check_boost_state_body.
    destruct (zen_voltage_verify_pstate _ _) as [[] ps];
      destruct z; exact HP. }
  match goal with
  | |- context [for_loop ?n2 0 (check_boost_state_body mp)
                  (for_loop ?n1 0 (check_pstate_body mp) ?a)] =>
      pose proof (H2 n2 0 _ (H1 n1 0 a ltac:(repeat split))) as H;
      destruct (for_loop n2 0 (check_boost_state_body mp)
                  (for_loop n1 0 (check_pstate_body mp) a)) as [hu z]
  end.
  exact H.
Qed.

(** A core that [zen_freq_init_cpu] brought under control: its initial
    target is the zero-filled one, its performance range is 0..255, it is
    in Normal with the ceiling at 255. *)
Lemma init_cpu_fields mp policy rdmsr has_boost a1 a2 a3 zcpu :
  (zen_freq_init_cpu mp policy rdmsr has_boost a1 a2 a3).1.2 = Some zcpu ->
  perf_target zcpu = Some zero_perf_target
  /\ lowest_perf zcpu = 0 /\ highest_perf zcpu = 255
  /\ thermal_state zcpu = ZEN_THERMAL_NORMAL
  /\ thermal_throttle_perf zcpu = 255.
Proof.
  unfold zen_freq_init_cpu.
  destruct a1; cbn -[zen_freq_get_pstate_info zen_voltage_check_all_pstates];
    [|discriminate].
  match goal with
  | |- context [zen_freq_get_pstate_info rdmsr has_boost ?z] =>
      pose proof (get_pstate_info_fields rdmsr has_boost z) as Hg;
      destruct (zen_freq_get_pstate_info rdmsr has_boost z) as [ret z1]
  end.
  simpl in Hg.
  destruct (ret =? 0); cbn -[zen_voltage_check_all_pstates]; [|discriminate].
  pose proof (voltage_check_fields mp z1) as Hv.
  destruct (zen_voltage_check_all_pstates mp z1) as [[r hu] z2].
  simpl in Hv. unfold zen_freq_build_freq_table.
  destruct a2; simpl; [|discriminate].
  destruct a3; simpl; [|discriminate].
  intros [= <-]. destruct z2; simpl in *. intuition congruence.
Qed.

(** C1, amended.  The initial target of a core satisfies the invariant.
    A target published by [zen_freq_set_policy] for bounds within the
    core's frequency range has [min_perf <= desired_perf], has its three
    performance fields within [lowest_perf, highest_perf], and has the
    current thermal ceiling as [max_perf]: it satisfies the invariant
    when [desired_perf] does not exceed that ceiling. *)
Theorem policy_target_bounds :
  (forall mp policy rdmsr has_boost a1 a2 a3 zcpu,
     (zen_freq_init_cpu mp policy rdmsr has_boost a1 a2 a3).1.2 = Some zcpu ->
     exists t, perf_target zcpu = Some t /\ perf_target_valid zcpu t)
  /\ (forall policy zcpu now,
        0 <= min_freq zcpu < max_freq zcpu ->
        255 * (max_freq zcpu - min_freq zcpu) < 2 ^ 32 ->
        min_freq zcpu <= p_min policy <= p_max policy ->
        p_max policy <= max_freq zcpu ->
        lowest_perf zcpu = 0 -> highest_perf zcpu = 255 ->
        0 <= thermal_throttle_perf zcpu <= 255 ->
        exists t,
          zen_freq_set_policy policy (Some zcpu) true now
          = Some (0, Some (set_perf_target (Some t) zcpu))
          /\ min_perf t <= desired_perf t
          /\ lowest_perf zcpu <= min_perf t <= highest_perf zcpu
          /\ lowest_perf zcpu <= desired_perf t <= highest_perf zcpu
          /\ lowest_perf zcpu <= max_perf t <= highest_perf zcpu
          /\ max_perf t = thermal_throttle_perf zcpu
          /\ (desired_perf t <= thermal_throttle_perf zcpu ->
              perf_target_valid zcpu t)).
Proof.
  split.
  - intros mp policy rdmsr has_boost a1 a2 a3 zcpu Hinit.
    destruct (init_cpu_fields _ _ _ _ _ _ _ _ Hinit) as (Ht & Hl & Hh & _).
    exists zero_perf_target. split; [exact Ht|].
    unfold perf_target_valid. rewrite Hl, Hh. simpl. lia.
  - intros policy zcpu now Hf Hov Hp Hpm Hl Hh Hc.
    destruct (freq_to_perf_value (p_max policy) (min_freq zcpu)
                (max_freq zcpu)) as [Ed Hd]; [lia..|].
    destruct (freq_to_perf_value (p_min policy) (min_freq zcpu)
                (max_freq zcpu)) as [Em Hm]; [lia..|].
    assert (255 * (p_min policy - min_freq zcpu)
              / (max_freq zcpu - min_freq zcpu)
            <= 255 * (p_max policy - min_freq zcpu)
                 / (max_freq zcpu - min_freq zcpu)) as Hmono
      by (apply Z.div_le_mono; lia).
    unfold zen_freq_set_policy. rewrite Ed, Em.
    unfold zen_perf_target_update. simpl.
    eexists. split; [reflexivity|].
    unfold perf_target_valid. simpl.
    rewrite !(u8_small _ Hd), !(u8_small _ Hm), !(u8_small _ Hc), Hl, Hh.
    repeat split; lia.
Qed.

Lemma policy_target_bounds_witness :
  exists t,
    zen_freq_set_policy (mk_policy 0 0 300000 700000)
      (Some (example_zcpu default_params)) true 0
    = Some (0, Some (set_perf_target (Some t) (example_zcpu default_params)))
    /\ perf_target_valid (example_zcpu default_params) t.
Proof.
  destruct policy_target_bounds as [_ H].
  destruct (H (mk_policy 0 0 300000 700000) (example_zcpu default_params) 0)
    as (t & E & H1 & H2 & H3 & H4 & H5 & H6);
    [vm_compute; repeat split; (discriminate || reflexivity)..|].
  exists t. split; [exact E|]. apply H6.
  change (thermal_throttle_perf (example_zcpu default_params)) with 255.
  change (highest_perf (example_zcpu default_params)) with 255 in H3. lia.
Defined.

(** C1 as stated fails.  On the core in hard throttle (ceiling 0),
    [zen_freq_set_policy] for the full frequency range publishes a target
    with [desired_perf = 255] above [max_perf = 0]. *)
Lemma policy_target_counterexample :
  exists t,
    zen_freq_set_policy (mk_policy 0 0 300000 700000)
      (Some example_hard_zcpu) true 0
    = Some (0, Some (set_perf_target (Some t) example_hard_zcpu))
    /\ desired_perf t = 255 /\ min_perf t = 0 /\ max_perf t = 0
    /\ ~ perf_target_valid example_hard_zcpu t.
Proof.
  eexists. split; [vm_compute; reflexivity|].
  repeat split. vm_compute. intros [[_ H] _]. apply H. reflexivity.
Qed.

(** ** Lock-less fast switch *)

(** An entry equal to the request ends the scan with the request. *)
Lemma freq_table_scan_exact pre entry post target : forall best,
  Forall (fun e => frequency e <> CPUFREQ_TABLE_END) pre ->
  frequency entry = target -> target <> CPUFREQ_TABLE_END ->
  freq_table_scan (pre ++ entry :: post) target best = target.
Proof.
  induction pre as [|e pre IH]; intros best Hpre He Ht; simpl.
  - rewrite He. destruct (target =? CPUFREQ_TABLE_END) eqn:E1; [lia|].
    rewrite Z.eqb_refl. reflexivity.
  - inversion Hpre as [|? ? H1 H2]; subst.
    destruct (frequency e =? CPUFREQ_TABLE_END) eqn:E1; [lia|].
    destruct (frequency e =? frequency entry) eqn:E2; [lia|].
    apply IH; auto.
Qed.

(** Without an entry equal to the request the scan never returns less
    than the frequency it started from, [policy->cur]. *)
Lemma freq_table_scan_at_least_start table target : forall best,
  Forall (fun e => frequency e <> target) table ->
  best <= freq_table_scan table target best.
Proof.
  induction table as [|e table IH]; intros best Hne; simpl; [lia|].
  inversion Hne as [|? ? H1 H2]; subst.
  destruct (frequency e =? CPUFREQ_TABLE_END); [lia|].
  destruct (frequency e =? target) eqn:E; [lia|].
  etransitivity; [|apply IH; assumption].
  destruct (_ && _) eqn:E1; lia.
Qed.

(** C3.  On the example core (table 300000, 500000, 700000 kHz) with
    [policy->cur] at 700000, a request for 400000 is answered by 700000:
    the scan's result exceeds the request although the entry 300000 does
    not. *)
Theorem fast_switch_scan_exceeds_request :
  let zcpu := example_zcpu default_params in
  let policy := mk_policy 0 700000 300000 700000 in
  map frequency (default [] (freq_table_rcu zcpu))
  = [300000; 500000; 700000; CPUFREQ_TABLE_END]
  /\ freq_table_scan (default [] (freq_table_rcu zcpu)) 400000 (p_cur policy)
     = 700000
  /\ returned_freq
       (zen_freq_fast_switch_lockless policy (Some zcpu) 400000 true 0)
     = Some 700000.
Proof. vm_compute. auto. Qed.




Lemma find_pstate_fields n best : forall i zcpu,
  num_pstates (find_pstate_from n i best zcpu) = num_pstates zcpu
  /\ cur_freq (find_pstate_from n i best zcpu) = cur_freq zcpu.
Proof.
  induction n as [|n IH]; intros i zcpu; simpl; [auto|].
  destruct (_ =? best); [destruct zcpu; auto | apply IH].
Qed.



Lemma apply_target_limits_returns zcpu best :
  u32 (highest_perf zcpu - lowest_perf zcpu) <> 0 ->
  exists f, apply_target_limits zcpu best = Some f.
Proof.
  intros Hd. unfold apply_target_limits, ZEN_PERF_TO_FREQ.
  destruct (perf_target zcpu); [|eauto].
  destruct (u32 (highest_perf zcpu - lowest_perf zcpu) =? 0) eqn:E; [lia|].
  destruct (thermal_state zcpu); eauto.
Qed.

(** C9.  When the remote call cannot run on the owning CPU, the selector
    returns [policy->cur], whatever was requested; the P-state MSR and
    the applied-frequency field are as they were. *)
Theorem fast_switch_remote_apply_failed policy zcpu table target msr :
  freq_table_rcu zcpu = Some table ->
  u32 (highest_perf zcpu - lowest_perf zcpu) <> 0 ->
  exists zcpu',
    zen_freq_fast_switch_lockless policy (Some zcpu) target false msr
    = Some (p_cur policy, Some zcpu', msr)
    /\ cur_freq zcpu' = cur_freq zcpu.
Proof.
  intros Ht Hd. unfold zen_freq_fast_switch_lockless. rewrite Ht.
  destruct (apply_target_limits_returns zcpu
              (freq_table_scan table target (p_cur policy)) Hd) as [f ->].
  simpl. eexists. split; [reflexivity|]. apply find_pstate_fields.
Qed.

Lemma fast_switch_remote_apply_failed_witness :
  exists zcpu',
    zen_freq_fast_switch_lockless (mk_policy 0 500000 300000 700000)
      (Some (example_zcpu default_params)) 700000 false 0
    = Some (500000, Some zcpu', 0)
    /\ cur_freq zcpu' = cur_freq (example_zcpu default_params).
Proof.
  apply (fast_switch_remote_apply_failed (mk_policy 0 500000 300000 700000)
           (example_zcpu default_params)
           (default [] (freq_table_rcu (example_zcpu default_params)))
           700000 0).
  - reflexivity.
  - vm_compute. discriminate.
Defined.

(** * Further properties of the driver *)

(** ** Frequency decoding *)

Lemma calc_freq_low_bits val :
  zen_freq_calc_freq_from_pstate val
  = zen_freq_calc_freq_from_pstate (val mod 2 ^ 11).
Proof.
  rewrite <- Z.land_ones by lia.
  unfold zen_freq_calc_freq_from_pstate, PSTATE_DEF_DID, PSTATE_DEF_FID,
    PSTATE_DEF_CUR_DIV.
  rewrite !Z.shiftr_land, <- !Z.land_assoc.
  reflexivity.
Qed.

Lemma calc_freq_range val :
  0 <= zen_freq_calc_freq_from_pstate val <= 775000.
Proof.
  rewrite calc_freq_low_bits.
  assert (forallb
            (fun k =>
               (0 <=? zen_freq_calc_freq_from_pstate k)
               && (zen_freq_calc_freq_from_pstate k <=? 775000))
            (seqZ 0 2048) = true) as Hall by (vm_compute; reflexivity).
  rewrite forallb_forall in Hall.
  specialize (Hall (val mod 2 ^ 11)).
  assert (In (val mod 2 ^ 11) (seqZ 0 2048)) as Hin.
  { apply list_elem_of_In, elem_of_seqZ.
    change (2 ^ 11) with 2048.
    pose proof (Z.mod_pos_bound val 2048 ltac:(lia)). lia. }
  specialize (Hall Hin). lia.
Qed.

(** X1.  Whatever the P-state definition MSR holds, the decoded frequency
    is a whole number of MHz between 0 and 775 MHz: the divider field
    [PSTATE_DEF_CUR_DIV] is read from bits 4-5, which are also the two
    high bits of the frequency id. *)
Theorem calc_freq_at_most_775_mhz val :
  0 <= zen_freq_calc_freq_from_pstate val <= 775000
  /\ zen_freq_calc_freq_from_pstate val mod 1000 = 0.
Proof.
  rewrite calc_freq_low_bits.
  assert (forallb
            (fun k =>
               (0 <=? zen_freq_calc_freq_from_pstate k)
               && (zen_freq_calc_freq_from_pstate k <=? 775000)
               && (zen_freq_calc_freq_from_pstate k mod 1000 =? 0))
            (seqZ 0 2048) = true) as Hall by (vm_compute; reflexivity).
  rewrite forallb_forall in Hall.
  specialize (Hall (val mod 2 ^ 11)).
  assert (In (val mod 2 ^ 11) (seqZ 0 2048)) as Hin.
  { apply list_elem_of_In, elem_of_seqZ.
    change (2 ^ 11) with 2048.
    pose proof (Z.mod_pos_bound val 2048 ltac:(lia)). lia. }
  specialize (Hall Hin). lia.
Qed.

(** ** P-state discovery *)

Lemma for_loop_invariant_idx {St : Type} (P : Z -> St -> Prop)
    (body : Z -> St -> St) n : forall i s,
  (forall k s, i <= k < i + Z.of_nat n -> P k s -> P (k + 1) (body k s)) ->
  P i s -> P (i + Z.of_nat n) (for_loop n i body s).
Proof.
  induction n as [|n IH]; intros i s Hbody Hs; simpl for_loop.
  - replace (i + Z.of_nat 0) with i by lia. exact Hs.
  - replace (i + Z.of_nat (S n)) with ((i + 1) + Z.of_nat n) by lia.
    apply IH.
    + intros k s' Hk. apply Hbody. lia.
    + apply Hbody; [lia | exact Hs].
Qed.

Lemma pstate_at_insert_eq arr i ps :
  0 <= i -> (Z.to_nat i < length arr)%nat ->
  pstate_at (<[Z.to_nat i := ps]> arr) i = ps.
Proof.
  intros Hi Hl. unfold pstate_at.
  rewrite list_lookup_insert_eq by exact Hl. reflexivity.
Qed.

Lemma pstate_at_insert_ne arr i j ps :
  0 <= i -> 0 <= j -> i <> j ->
  pstate_at (<[Z.to_nat i := ps]> arr) j = pstate_at arr j.
Proof.
  intros Hi Hj Hne. unfold pstate_at.
  rewrite list_lookup_insert_ne by lia. reflexivity.
Qed.

Lemma pstate_info_body_discovered rdmsr k z :
  0 <= k < 8 -> discovered rdmsr k z ->
  discovered rdmsr (k + 1) (pstate_info_body rdmsr k z).
Proof.
  intros Hk (Hn & Hlen & Hex & Hmax & Hall).
  unfold pstate_info_body.
  destruct (rdmsr (MSR_AMD_PSTATE_DEF_BASE + k)) as [v|] eqn:Erd.
  2:{ repeat split; try lia; try (apply Hall; lia).
      - intros H. apply Hex in H. destruct H as (i & v & ? & ? & ?).
        exists i, v. repeat split; auto; lia.
      - intros (i & v & Hi & Hr & Hv).
        apply Hex. exists i, v. repeat split; auto; try lia.
        destruct (Z.eq_dec i k); [subst; congruence | lia]. }
  destruct (Z.land v PSTATE_DEF_EN =? 0) eqn:Een.
  { repeat split; try lia; try (apply Hall; lia).
    - intros H. apply Hex in H. destruct H as (i & v' & ? & ? & ?).
      exists i, v'. repeat split; auto; lia.
    - intros (i & v' & Hi & Hr & Hv).
      apply Hex. exists i, v'. repeat split; auto; try lia.
      destruct (Z.eq_dec i k); [subst | lia].
      rewrite Erd in Hr. injection Hr as <-. lia. }
  pose proof (calc_freq_range v) as Hf.
  set (f := zen_freq_calc_freq_from_pstate v) in *.
  unfold ZEN_MAX_PSTATES in *.
  destruct z as [a b n d e mx mn h i' j' k' l m n' o p q r s t u w x].
  simpl in *.
  assert (u32 (n + 1) = n + 1) as Hu
    by (apply u32_small; change (2 ^ 32) with 4294967296; lia).
  rewrite Hu. unfold discovered. simpl.
  split; [lia|]. split; [rewrite length_insert; exact Hlen|].
  split; [split; [intros _; exists k, v; repeat split; auto; lia | lia]|].
  split; [destruct (f >? mx) eqn:?; lia|].
  intros j Hj. destruct (Z.eq_dec j n) as [->|Hne].
  - rewrite pstate_at_insert_eq by lia. simpl.
    repeat split; try reflexivity;
      [destruct (f <? mn) eqn:?; lia | destruct (f >? mx) eqn:?; lia].
  - rewrite pstate_at_insert_ne by lia.
    destruct (Hall j ltac:(lia)) as (? & ? & ?).
    repeat split; auto; [destruct (f <? mn) eqn:?; lia | destruct (f >? mx) eqn:?; lia].
Qed.

Lemma mark_boost_loop_noop n z : forall i,
  0 <= i -> i + Z.of_nat n <= num_pstates z ->
  (forall j, 0 <= j < num_pstates z ->
     freq (pstate_at (pstates z) j) <= nominal_freq z) ->
  for_loop n i mark_boost_body z = z.
Proof.
  induction n as [|n IH]; intros i Hi Hn Hall; simpl; [reflexivity|].
  assert (mark_boost_body i z = z) as ->.
  { unfold mark_boost_body. specialize (Hall i ltac:(lia)).
    destruct (_ >? _) eqn:E; [lia | reflexivity]. }
  apply IH; [lia | lia | exact Hall].
Qed.

Lemma pstate_info_body_frame rdmsr k z :
  num_boost (pstate_info_body rdmsr k z) = num_boost z
  /\ stats (pstate_info_body rdmsr k z) = stats z.
Proof.
  unfold pstate_info_body.
  destruct (rdmsr _) as [v|]; [|auto].
  destruct (_ =? 0); [auto|]. destruct z; auto.
Qed.

Lemma get_pstate_info_result rdmsr has_boost zcpu :
  length (pstates zcpu) = ZEN_MAX_PSTATES ->
  let r := zen_freq_get_pstate_info rdmsr has_boost zcpu in
  discovered rdmsr 8 r.2
  /\ nominal_freq r.2 = max_freq r.2
  /\ r.1 = (if num_pstates r.2 >? 0 then 0 else - ENODEV)
  /\ num_boost r.2 = 0
  /\ stats r.2 = stats zcpu.
Proof.
  intros Hlen. unfold zen_freq_get_pstate_info.
  destruct zcpu as [a b n d e mx mn h i' j' k' l m n' o p q r s t u w x].
  simpl in Hlen.
  match goal with
  | |- context [for_loop ZEN_MAX_PSTATES 0 ?body ?z0] =>
      pose proof (for_loop_invariant_idx
                    (fun k z => discovered rdmsr k z /\ num_boost z = 0
                                /\ stats z = x) body
                    ZEN_MAX_PSTATES 0 z0) as Hloop;
      set (z1 := for_loop ZEN_MAX_PSTATES 0 body z0) in *
  end.
  assert (discovered rdmsr 8 z1 /\ num_boost z1 = 0 /\ stats z1 = x)
    as (Hd & Hnb & Hst).
  { apply Hloop.
    - intros k s' Hk (Hd & Hnb & Hst).
      destruct (pstate_info_body_frame rdmsr k s') as [-> ->].
      split; [|auto]. apply pstate_info_body_discovered; [|exact Hd].
      unfold ZEN_MAX_PSTATES in Hk. lia.
    - split; [|auto].
      unfold discovered. simpl. repeat split; try lia; try exact Hlen.
      intros (i & v & ? & _). lia. }
  clear Hloop. clearbody z1.
  destruct z1 as [a1 b1 n1 d1 e1 mx1 mn1 h1 i1 j1 k1 l1 m1 n1' o1 p1 q1 r1 s1
                  t1 u1 w1 x1].
  simpl in Hnb, Hst. subst e1 x1. simpl.
  assert ((if has_boost
           then for_loop (Z.to_nat n1) 0 mark_boost_body
                  (mk_zcpu a1 b1 n1 d1 0 mx1 mn1 mx1 255 0 128 true m1 n1'
                     o1 p1 q1 r1 s1 t1 u1 w1 x)
           else mk_zcpu a1 b1 n1 d1 0 mx1 mn1 mx1 255 0 128 l1 m1 n1' o1 p1
                  q1 r1 s1 t1 u1 w1 x)
          = mk_zcpu a1 b1 n1 d1 0 mx1 mn1 mx1 255 0 128
              (if has_boost then true else l1) m1 n1' o1 p1 q1 r1 s1 t1 u1
              w1 x) as ->.
  { destruct has_boost; [|reflexivity].
    destruct Hd as (Hn & _ & _ & _ & Hall). simpl in Hn, Hall.
    apply mark_boost_loop_noop; simpl; [lia | lia |].
    intros j Hj. apply Hall. exact Hj. }
  simpl. split; [exact Hd|]. repeat split; reflexivity.
Qed.

(** X2.  [zen_freq_get_pstate_info] on a per-CPU structure with its array
    of eight P-states: it records at most eight P-states; it returns 0
    when some definition MSR among the eight reads as enabled, and
    [-ENODEV] otherwise; every recorded P-state is enabled, has its
    frequency between [min_freq] and [max_freq <= 775000], and is not a
    boost state, whether or not the CPU has the boost feature: the
    nominal frequency is set to the maximum one, which no P-state
    exceeds. *)
Theorem get_pstate_info_discovery rdmsr has_boost zcpu :
  length (pstates zcpu) = ZEN_MAX_PSTATES ->
  let r := zen_freq_get_pstate_info rdmsr has_boost zcpu in
  0 <= num_pstates r.2 <= 8
  /\ (r.1 = 0 <->
      exists i v, 0 <= i < 8 /\ rdmsr (MSR_AMD_PSTATE_DEF_BASE + i) = Some v
                  /\ Z.land v PSTATE_DEF_EN <> 0)
  /\ (r.1 = 0 \/ r.1 = - ENODEV)
  /\ (r.1 = 0 <-> 0 < num_pstates r.2)
  /\ nominal_freq r.2 = max_freq r.2
  /\ 0 <= max_freq r.2 <= 775000
  /\ forall j, 0 <= j < num_pstates r.2 ->
       en (pstate_at (pstates r.2) j) = true
       /\ boost (pstate_at (pstates r.2) j) = false
       /\ min_freq r.2 <= freq (pstate_at (pstates r.2) j) <= max_freq r.2.
Proof.
  intros Hlen.
  destruct (get_pstate_info_result rdmsr has_boost zcpu Hlen)
    as ((Hn & Hl & Hex & Hmax & Hall) & Hnom & Hret & _).
  cbv zeta. destruct (zen_freq_get_pstate_info rdmsr has_boost zcpu)
    as [ret z]. cbn [fst snd] in *.
  assert (ret = 0 <-> 0 < num_pstates z) as Hret'.
  { rewrite Hret. destruct (num_pstates z >? 0) eqn:E; unfold ENODEV; lia. }
  split; [lia|].
  split; [rewrite Hret'; exact Hex|].
  split; [rewrite Hret; destruct (num_pstates z >? 0); auto|].
  split; [exact Hret'|].
  split; [exact Hnom|].
  split; [lia|].
  exact Hall.
Qed.

Lemma get_pstate_info_discovery_witness :
  let r := zen_freq_get_pstate_info example_rdmsr true zero_zcpu in
  r.1 = 0 /\ num_pstates r.2 = 3
  /\ boost (pstate_at (pstates r.2) 0) = false.
Proof.
  destruct (get_pstate_info_discovery example_rdmsr true zero_zcpu)
    as (_ & _ & _ & _ & _ & _ & H); [reflexivity|].
  cbv zeta. split; [reflexivity|]. split; [reflexivity|].
  apply (H 0). vm_compute. split; [discriminate | reflexivity].
Defined.

(** ** The voltage check as a whole *)

Lemma verify_pstate_fields mp ps :
  freq (zen_voltage_verify_pstate mp ps).2 = freq ps
  /\ boost (zen_voltage_verify_pstate mp ps).2 = boost ps
  /\ en (zen_voltage_verify_pstate mp ps).2 = en ps
  /\ voltage (zen_voltage_verify_pstate mp ps).2 = ZEN_VID_TO_MV (vid ps).
Proof.
  unfold zen_voltage_verify_pstate. destruct ps; simpl. case_ifs; auto.
Qed.

Lemma check_pstate_body_step mp i hu zcpu ps :
  pstates zcpu !! Z.to_nat i = Some ps ->
  exists z1,
    check_pstate_body mp i (hu, zcpu)
    = (hu || negb (zen_voltage_verify_pstate mp ps).1, z1)
    /\ pstates z1
       = <[Z.to_nat i := (zen_voltage_verify_pstate mp ps).2]> (pstates zcpu)
    /\ voltage_clamps (stats z1)
       = (if (zen_voltage_verify_pstate mp ps).1
          then voltage_clamps (stats zcpu)
          else u64 (voltage_clamps (stats zcpu) + 1))
    /\ num_boost z1 = num_boost zcpu
    /\ num_pstates z1 = num_pstates zcpu.
Proof.
  intros Hps. unfold check_pstate_body, pstate_at. rewrite Hps. simpl.
  destruct (zen_voltage_verify_pstate mp ps) as [[] ps']; simpl.
  - eexists. rewrite orb_false_r.
    split; [reflexivity|]. destruct zcpu; simpl. auto.
  - eexists. rewrite orb_true_r.
    split; [reflexivity|].
    destruct zcpu as [? ? ? ? ? ? ? ? ? ? ? ? ? ? ? ? ? ? ? ? ? ? st].
    destruct st. simpl. auto.
Qed.

Lemma for_loop_S {St : Type} n i (body : Z -> St -> St) s :
  for_loop (S n) i body s = for_loop n (i + 1) body (body i s).
Proof. reflexivity. Qed.

Lemma check_pstates_loop mp n : forall i has_unsafe zcpu,
  0 <= i -> (Z.to_nat i + n <= length (pstates zcpu))%nat ->
  0 <= voltage_clamps (stats zcpu) ->
  voltage_clamps (stats zcpu) + Z.of_nat n < 2 ^ 64 ->
  let r := for_loop n i (check_pstate_body mp) (has_unsafe, zcpu) in
  let visited := take n (drop (Z.to_nat i) (pstates zcpu)) in
  pstates r.2
  = take (Z.to_nat i) (pstates zcpu)
    ++ map (fun ps => (zen_voltage_verify_pstate mp ps).2) visited
    ++ drop (Z.to_nat i + n) (pstates zcpu)
  /\ voltage_clamps (stats r.2)
     = voltage_clamps (stats zcpu)
       + Z.of_nat (length (filter
                             (fun ps => (zen_voltage_verify_pstate mp ps).1
                                        = false) visited))
  /\ r.1 = has_unsafe
           || negb (forallb (fun ps => (zen_voltage_verify_pstate mp ps).1)
                      visited)
  /\ num_boost r.2 = num_boost zcpu
  /\ num_pstates r.2 = num_pstates zcpu.
Proof.
  induction n as [|n IH]; intros i hu zcpu Hi Hlen Hc Hov; cbv zeta.
  - simpl. rewrite Nat.add_0_r, take_drop, orb_false_r.
    repeat split; lia.
  - destruct (lookup_lt_is_Some_2 (pstates zcpu) (Z.to_nat i))
      as [ps Hps]; [lia|].
    destruct (check_pstate_body_step mp i hu zcpu ps Hps)
      as (z1 & Ebody & Hp1 & Hs1 & Hb1 & Hn1).
    rewrite for_loop_S, Ebody.
    rewrite (drop_S _ _ _ Hps). simpl take. simpl map. simpl forallb.
    rewrite filter_cons.
    set (v := zen_voltage_verify_pstate mp ps) in *.
    assert (Z.to_nat (i + 1) = S (Z.to_nat i)) as Hi1 by lia.
    specialize (IH (i + 1) (hu || negb v.1) z1).
    rewrite Hp1, Hi1, Hb1, Hn1 in IH.
    rewrite length_insert in IH.
    rewrite drop_insert_lt in IH by lia.
    rewrite (take_S_r _ _ v.2) in IH
      by (apply list_lookup_insert_eq; lia).
    rewrite take_insert_ge in IH by lia.
    rewrite drop_insert_lt in IH by lia.
    assert (0 <= voltage_clamps (stats z1)
            /\ voltage_clamps (stats z1) + Z.of_nat n < 2 ^ 64
            /\ voltage_clamps (stats z1)
               = voltage_clamps (stats zcpu)
                 + (if v.1 then 0 else 1)) as (Hc1 & Hov1 & Hs1').
    { rewrite Hs1. destruct v.1; [lia|].
      unfold u64. rewrite Z.mod_small by lia. lia. }
    destruct IH as (IH1 & IH2 & IH3 & IH4 & IH5); [lia..|].
    rewrite IH1, IH2, IH3, IH4, IH5, Hs1'.
    replace (S (Z.to_nat i) + n)%nat with (Z.to_nat i + S n)%nat by lia.
    rewrite <- app_assoc. simpl.
    destruct v.1 eqn:Ev; simpl.
    + rewrite orb_false_r. repeat split; auto; lia.
    + rewrite orb_true_r. simpl length. repeat split; auto; lia.
Qed.

(** X3.  On a core without separate boost states (as
    [zen_freq_get_pstate_info] leaves it), [zen_voltage_check_all_pstates]
    returns 0 whatever it finds; it replaces each of the first
    [num_pstates] P-states by the verifier's version and leaves the rest
    of the array alone; it adds to [voltage_clamps] the number of
    P-states the verifier rejected; and [has_unsafe] tells whether there
    was one. *)
Theorem voltage_check_all_counts mp zcpu :
  0 <= num_pstates zcpu ->
  (Z.to_nat (num_pstates zcpu) <= length (pstates zcpu))%nat ->
  num_boost zcpu = 0 ->
  0 <= voltage_clamps (stats zcpu) ->
  voltage_clamps (stats zcpu) + num_pstates zcpu < 2 ^ 64 ->
  let r := zen_voltage_check_all_pstates mp zcpu in
  let visited := take (Z.to_nat (num_pstates zcpu)) (pstates zcpu) in
  r.1.1 = 0
  /\ pstates r.2
     = map (fun ps => (zen_voltage_verify_pstate mp ps).2) visited
       ++ drop (Z.to_nat (num_pstates zcpu)) (pstates zcpu)
  /\ voltage_clamps (stats r.2)
     = voltage_clamps (stats zcpu)
       + Z.of_nat (length (filter
                             (fun ps => (zen_voltage_verify_pstate mp ps).1
                                        = false) visited))
  /\ r.1.2 = negb (forallb (fun ps => (zen_voltage_verify_pstate mp ps).1)
                     visited)
  /\ num_pstates r.2 = num_pstates zcpu.
Proof.
  intros Hn Hlen Hb Hc Hov. unfold zen_voltage_check_all_pstates.
  destruct (check_pstates_loop mp (Z.to_nat (num_pstates zcpu)) 0 false zcpu)
    as (H1 & H2 & H3 & H4 & H5); [lia..|].
  destruct (for_loop _ 0 (check_pstate_body mp) _) as [hu z1].
  simpl in H1, H2, H3, H4, H5. simpl snd.
  rewrite H4, Hb. simpl. rewrite drop_0 in *.
  repeat split; assumption.
Qed.

Lemma voltage_check_all_counts_witness :
  let z := (zen_freq_get_pstate_info example_rdmsr false zero_zcpu).2 in
  let r := zen_voltage_check_all_pstates default_params z in
  r.1.1 = 0 /\ voltage_clamps (stats r.2) = 1 /\ r.1.2 = true.
Proof.
  destruct (voltage_check_all_counts default_params
              (zen_freq_get_pstate_info example_rdmsr false zero_zcpu).2)
    as (H1 & _ & H3 & H4 & _);
    [vm_compute; first [reflexivity | discriminate | lia]..|].
  cbv zeta. split; [exact H1|]. split; [rewrite H3 | rewrite H4];
    vm_compute; reflexivity.
Defined.

(** ** More on the thermal guard *)

Lemma s32_small x : - 2 ^ 31 <= x < 2 ^ 31 -> s32 x = x.
Proof. intros H. unfold s32. rewrite Z.mod_small; lia. Qed.

Lemma s32_range x : - 2 ^ 31 <= s32 x < 2 ^ 31.
Proof.
  unfold s32.
  pose proof (Z.mod_pos_bound (x + 2 ^ 31) (2 ^ 32) ltac:(lia)). lia.
Qed.

(** X4.  The PI controller for a sensor reading (0..127) and a soft limit
    whose 50-fold fits a signed 32-bit integer: the integral term it
    stores is within -1000..1000 whatever it was before, and the ceiling
    it recommends is never below 239 (never below 243 when the soft limit
    is 80 or more): the proportional term is at most 6 and the integral
    term at most 10. *)
Theorem pi_controller_bounds mp zcpu temp :
  0 <= temp <= 127 ->
  0 <= zen_freq_soft_temp mp -> 50 * zen_freq_soft_temp mp < 2 ^ 31 ->
  let r := zen_thermal_pi_controller mp zcpu temp in
  - ZEN_THERMAL_INTEGRAL_MAX <= thermal_integral r.2
    <= ZEN_THERMAL_INTEGRAL_MAX
  /\ 239 <= r.1 <= 255
  /\ (80 <= zen_freq_soft_temp mp -> 243 <= r.1).
Proof.
  intros Ht Hs0 Hs. unfold zen_thermal_pi_controller. cbv zeta.
  unfold ZEN_THERMAL_INTEGRAL_MAX, ZEN_THERMAL_KP, ZEN_THERMAL_KI.
  set (soft := zen_freq_soft_temp mp) in *.
  rewrite (s32_small temp), (s32_small soft), (s32_small (temp - soft))
    by lia.
  rewrite (s32_small ((temp - soft) * 50)) by lia.
  set (acc0 := s32 (thermal_integral zcpu + (temp - soft))).
  pose proof (s32_range (thermal_integral zcpu + (temp - soft))) as Hacc0.
  fold acc0 in Hacc0.
  set (acc := if acc0 >? 1000 then 1000
              else if acc0 <? - (1000) then - (1000) else acc0).
  assert (-1000 <= acc <= 1000) as Hacc
    by (subst acc; destruct (acc0 >? 1000) eqn:?;
        [lia | destruct (acc0 <? - (1000)) eqn:?; lia]).
  clearbody acc.
  rewrite (s32_small (acc * 10)) by lia.
  set (p := Z.quot ((temp - soft) * 50) 1000).
  set (i := Z.quot (acc * 10) 1000).
  assert (p <= 6) as Hp6.
  { pose proof (Z.quot_le_mono ((temp - soft) * 50) 6350 1000
                  ltac:(lia) ltac:(lia)) as H.
    exact H. }
  assert (80 <= soft -> p <= 2) as Hp2.
  { intros H80.
    pose proof (Z.quot_le_mono ((temp - soft) * 50) 2350 1000
                  ltac:(lia) ltac:(lia)) as H.
    exact H. }
  assert (-2147483 <= p) as Hpl.
  { pose proof (Z.quot_le_mono (- 2 ^ 31) ((temp - soft) * 50) 1000
                  ltac:(lia) ltac:(lia)) as H.
    exact H. }
  assert (-10 <= i <= 10) as Hi.
  { pose proof (Z.quot_le_mono (-10000) (acc * 10) 1000
                  ltac:(lia) ltac:(lia)) as H1.
    pose proof (Z.quot_le_mono (acc * 10) 10000 1000
                  ltac:(lia) ltac:(lia)) as H2.
    split; [exact H1 | exact H2]. }
  clearbody p i.
  rewrite (s32_small (p + i)) by lia.
  unfold fst, snd.
  assert (thermal_integral (set_thermal_integral acc zcpu) = acc) as ->
    by (destruct zcpu; reflexivity).
  split; [lia|].
  unfold ZEN_CLAMP.
  destruct (p + i >? 0) eqn:E1; [|lia].
  destruct (p + i <? 0) eqn:E2; [lia|].
  destruct (p + i >? 255) eqn:E3; [lia|].
  rewrite u8_small by lia. lia.
Qed.

Lemma pi_controller_bounds_witness :
  let r :=
    zen_thermal_pi_controller default_params (example_zcpu default_params)
      127 in
  243 <= r.1 <= 255.
Proof.
  destruct (pi_controller_bounds default_params
              (example_zcpu default_params) 127) as (_ & H1 & H2);
    [vm_compute; repeat split; (discriminate || reflexivity)..|].
  cbv zeta. split; [apply H2; vm_compute; discriminate | apply H1].
Defined.

(** X5.  A poll in Recovery never enters HardThrottle, however hot the
    sample: at or above the soft limit (and the safe limit) the state
    becomes SoftThrottle and the ceiling is the one the PI controller
    recommends, also when the sample is above the hard limit. *)
Theorem thermal_recovery_skips_hard mp zcpu therm indet :
  thermal_state zcpu = ZEN_THERMAL_RECOVERY ->
  let temp := zen_read_temperature therm in
  let zcpu' := zen_thermal_check_cpu mp zcpu therm indet in
  thermal_state zcpu' <> ZEN_THERMAL_HARD_THROTTLE
  /\ (ZEN_THERMAL_SAFE_LIMIT <= temp -> zen_freq_soft_temp mp <= temp ->
      thermal_state zcpu' = ZEN_THERMAL_SOFT_THROTTLE
      /\ thermal_throttle_perf zcpu'
         = (zen_thermal_pi_controller mp (set_last_temp temp zcpu) temp).1).
Proof.
  intros Hst. cbv zeta. unfold zen_thermal_check_cpu.
  pose proof (read_temperature_range therm) as Hr.
  set (temp := zen_read_temperature therm) in *.
  unfold ZEN_THERMAL_SAFE_LIMIT.
  destruct (temp =? 0) eqn:E; [rewrite Hst; split; [discriminate|lia]|].
  cbv zeta. rewrite (proj1 (set_last_temp_fields temp zcpu)), Hst.
  cbv beta iota.
  destruct (zen_thermal_pi_controller mp (set_last_temp temp zcpu) temp)
    as [perf zpi].
  unfold fst.
  destruct (temp <? 75) eqn:E1; cbv beta iota.
  - match goal with
    | |- context [set_thermal_state ?ns (if ?v =? _ then ?z else _)] =>
        destruct (thermal_check_store ns v z) as (-> & _ & _)
    end.
    split; [discriminate | lia].
  - destruct (temp >=? _) eqn:E2; cbv beta iota.
    + match goal with
      | |- context [set_thermal_state ?ns (if ?v =? _ then ?z else _)] =>
          destruct (thermal_check_store ns v z) as (-> & -> & _)
      end.
      split; [discriminate|]. intros _ _. split; reflexivity.
    + match goal with
      | |- context [set_thermal_state ?ns (if ?v =? _ then ?z else _)] =>
          destruct (thermal_check_store ns v z) as (-> & _ & _)
      end.
      split; [discriminate | lia].
Qed.

Lemma thermal_recovery_skips_hard_witness :
  let z := set_thermal_state ZEN_THERMAL_RECOVERY example_hard_zcpu in
  thermal_state
    (zen_thermal_check_cpu default_params z (therm_sample 100) 0)
  = ZEN_THERMAL_SOFT_THROTTLE.
Proof.
  cbv zeta.
  apply (thermal_recovery_skips_hard default_params
           (set_thermal_state ZEN_THERMAL_RECOVERY example_hard_zcpu)
           (therm_sample 100) 0);
    vm_compute; (discriminate || reflexivity).
Defined.

(** X6.  Every branch of the state machine but the one from SoftThrottle
    to Recovery assigns [new_max_perf]: outside that branch the outcome
    of a poll does not depend on the indeterminate byte. *)
Theorem thermal_check_assigned mp zcpu therm i1 i2 :
  ~ (thermal_state zcpu = ZEN_THERMAL_SOFT_THROTTLE
     /\ zen_read_temperature therm <> 0
     /\ zen_read_temperature therm < zen_freq_hard_temp mp
     /\ zen_read_temperature therm
          < u32 (zen_freq_soft_temp mp - ZEN_THERMAL_HYSTERESIS)) ->
  zen_thermal_check_cpu mp zcpu therm i1
  = zen_thermal_check_cpu mp zcpu therm i2.
Proof.
  intros Hn. unfold zen_thermal_check_cpu.
  set (temp := zen_read_temperature therm) in *.
  destruct (temp =? 0) eqn:E; [reflexivity|].
  cbv zeta. rewrite (proj1 (set_last_temp_fields temp zcpu)).
  destruct (zen_thermal_pi_controller mp (set_last_temp temp zcpu) temp)
    as [perf zpi].
  destruct (thermal_state zcpu) eqn:Hst; cbv beta iota;
    repeat (match goal with
            | |- context [if ?c then (?a, ?b) else _] => destruct c eqn:?
            end; cbv beta iota);
    try reflexivity.
  exfalso. apply Hn. rewrite Z.geb_leb in *. repeat split; lia.
Qed.

Lemma thermal_check_assigned_witness :
  zen_thermal_check_cpu default_params example_soft_zcpu (therm_sample 85) 7
  = zen_thermal_check_cpu default_params example_soft_zcpu (therm_sample 85)
      200.
Proof.
  apply (thermal_check_assigned default_params example_soft_zcpu
           (therm_sample 85) 7 200).
  intros (_ & _ & _ & H). vm_compute in H. discriminate.
Defined.

(** X7.  The sensor field has seven bits, so a hard limit above 127
    never triggers: from a state other than HardThrottle no sequence of
    polls reaches HardThrottle. *)
Theorem thermal_hard_limit_above_sensor_range mp polls : forall zcpu,
  3 <= zen_freq_soft_temp mp < 2 ^ 32 ->
  127 < zen_freq_hard_temp mp < 2 ^ 32 ->
  thermal_state zcpu <> ZEN_THERMAL_HARD_THROTTLE ->
  Forall (fun z => thermal_state z <> ZEN_THERMAL_HARD_THROTTLE)
    (thermal_polls mp zcpu polls).
Proof.
  induction polls as [|[therm indet] polls IH]; intros zcpu Hs Hh Hst;
    simpl thermal_polls; [constructor|].
  assert (thermal_state (zen_thermal_check_cpu mp zcpu therm indet)
          <> ZEN_THERMAL_HARD_THROTTLE) as Hst'.
  { destruct (Z.eq_dec (zen_read_temperature therm) 0) as [E|E].
    - rewrite thermal_check_invalid by exact E. exact Hst.
    - rewrite thermal_check_state by (lia || exact E).
      pose proof (read_temperature_range therm).
      unfold spec_thermal_transition, ZEN_THERMAL_HYSTERESIS,
        ZEN_THERMAL_SAFE_LIMIT.
      destruct (thermal_state zcpu); try contradiction;
        repeat (match goal with
                | |- context [if ?c then _ else _] => destruct c eqn:?
                end); (discriminate || lia). }
  constructor; [exact Hst'|]. apply IH; assumption.
Qed.

Lemma thermal_hard_limit_above_sensor_range_witness :
  Forall (fun z => thermal_state z <> ZEN_THERMAL_HARD_THROTTLE)
    (thermal_polls (mk_params 255 80 128 1450) (example_zcpu default_params)
       [(therm_sample 127, 0); (therm_sample 127, 0)]).
Proof.
  apply (thermal_hard_limit_above_sensor_range (mk_params 255 80 128 1450));
    vm_compute; repeat split; (discriminate || reflexivity).
Defined.

(** ** The frequency table and the selector *)

Lemma build_freq_entries_length i arr :
  length (build_freq_entries i arr) = i.
Proof. induction i as [|i IH]; simpl; [reflexivity | rewrite IH; reflexivity]. Qed.

Lemma build_freq_entries_lookup i arr : forall j,
  (j < i)%nat ->
  build_freq_entries i arr !! j
  = Some {| driver_data := Z.of_nat (i - 1 - j);
            frequency := freq (pstate_at arr (Z.of_nat (i - 1 - j))) |}.
Proof.
  induction i as [|i IH]; intros j Hj; [lia|].
  destruct j as [|j].
  - change (build_freq_entries (S i) arr !! 0%nat)
      with (Some {| driver_data := Z.of_nat i;
                    frequency := freq (pstate_at arr (Z.of_nat i)) |}).
    replace (S i - 1 - 0)%nat with i by lia. reflexivity.
  - change (build_freq_entries (S i) arr !! S j)
      with (build_freq_entries i arr !! j).
    rewrite IH by lia.
    replace (S i - 1 - S j)%nat with (i - 1 - j)%nat by lia. reflexivity.
Qed.

Lemma build_freq_entries_elem i arr e :
  e ∈ build_freq_entries i arr ->
  exists j, 0 <= j < Z.of_nat i
            /\ e = {| driver_data := j; frequency := freq (pstate_at arr j) |}.
Proof.
  induction i as [|i IH]; simpl; intros He.
  - apply elem_of_nil in He. contradiction.
  - apply elem_of_cons in He as [->|He].
    + exists (Z.of_nat i). split; [lia | reflexivity].
    + destruct (IH He) as (j & Hj & ->). exists j. split; [lia | reflexivity].
Qed.

Lemma build_freq_table_rcu zcpu :
  freq_table_rcu (zen_freq_build_freq_table true zcpu).2
  = Some (build_freq_entries (Z.to_nat (num_pstates zcpu)) (pstates zcpu)
          ++ [ {| driver_data := 0; frequency := CPUFREQ_TABLE_END |} ]).
Proof. destruct zcpu; reflexivity. Qed.

(** X8.  [zen_freq_build_freq_table], when its allocation succeeds, lists
    the P-states from the last down to the first and ends the table with
    [CPUFREQ_TABLE_END]: entry [j] carries the index [num_pstates - 1 - j]
    in [driver_data] and the frequency of that P-state. *)
Theorem build_freq_table_entries zcpu :
  0 <= num_pstates zcpu ->
  let r := zen_freq_build_freq_table true zcpu in
  r.1 = 0
  /\ exists table,
       freq_table_rcu r.2 = Some table
       /\ length table = S (Z.to_nat (num_pstates zcpu))
       /\ frequency <$> table !! Z.to_nat (num_pstates zcpu)
          = Some CPUFREQ_TABLE_END
       /\ forall j, 0 <= j < num_pstates zcpu ->
            table !! Z.to_nat j
            = Some {| driver_data := num_pstates zcpu - 1 - j;
                      frequency :=
                        freq (pstate_at (pstates zcpu)
                                (num_pstates zcpu - 1 - j)) |}.
Proof.
  intros Hn. cbv zeta.
  split; [reflexivity|].
  eexists. split; [apply build_freq_table_rcu|].
  split; [rewrite length_app, build_freq_entries_length; simpl; lia|].
  split.
  - rewrite lookup_app_r by (rewrite build_freq_entries_length; lia).
    rewrite build_freq_entries_length, Nat.sub_diag. reflexivity.
  - intros j Hj.
    rewrite lookup_app_l by (rewrite build_freq_entries_length; lia).
    rewrite build_freq_entries_lookup by lia.
    replace (Z.of_nat (Z.to_nat (num_pstates zcpu) - 1 - Z.to_nat j))
      with (num_pstates zcpu - 1 - j) by lia.
    reflexivity.
Qed.

Lemma build_freq_table_entries_witness :
  (zen_freq_build_freq_table true
     (zen_freq_get_pstate_info example_rdmsr false zero_zcpu).2).1 = 0.
Proof.
  apply (build_freq_table_entries
           (zen_freq_get_pstate_info example_rdmsr false zero_zcpu).2).
  vm_compute. discriminate.
Defined.

Lemma find_pstate_found n best zcpu : forall i k,
  0 <= i <= k -> k < i + Z.of_nat n ->
  freq (pstate_at (pstates zcpu) k) = best ->
  exists k', i <= k' <= k
             /\ freq (pstate_at (pstates zcpu) k') = best
             /\ find_pstate_from n i best zcpu = set_cur_pstate k' zcpu.
Proof.
  induction n as [|n IH]; intros i k Hi Hk Hf; [lia|].
  simpl. destruct (freq (pstate_at (pstates zcpu) i) =? best) eqn:E.
  - exists i. repeat split; lia.
  - assert (i <> k) as Hne
      by (intros ->; rewrite Hf, Z.eqb_refl in E; discriminate).
    destruct (IH (i + 1) k) as (k' & Hk' & Hfk & Eq); [lia | lia | exact Hf |].
    exists k'. repeat split; (lia || assumption).
Qed.

(** X9.  A request for the frequency of one of the core's P-states, on a
    core whose table was built from its P-states, in Normal thermal
    state and without I/O boost, on an online CPU: the selector returns
    exactly the requested frequency, whatever [policy->cur] is, selects
    the first P-state that has it, and records it as the applied
    frequency. *)
Theorem fast_switch_exact_match policy zcpu target msr k :
  freq_table_rcu zcpu
  = freq_table_rcu (zen_freq_build_freq_table true zcpu).2 ->
  0 <= k < num_pstates zcpu ->
  freq (pstate_at (pstates zcpu) k) = target ->
  (forall j, 0 <= j < num_pstates zcpu ->
     freq (pstate_at (pstates zcpu) j) <> CPUFREQ_TABLE_END) ->
  thermal_state zcpu = ZEN_THERMAL_NORMAL ->
  io_boost_active zcpu = false ->
  exists zcpu' msr',
    zen_freq_fast_switch_lockless policy (Some zcpu) target true msr
    = Some (target, Some zcpu', msr')
    /\ 0 <= cur_pstate zcpu' <= k
    /\ freq (pstate_at (pstates zcpu') (cur_pstate zcpu')) = target
    /\ cur_freq zcpu' = target.
Proof.
  intros Htab Hk Hf Hend Hst Hio.
  unfold zen_freq_fast_switch_lockless. rewrite Htab, build_freq_table_rcu.
  set (entries := build_freq_entries _ _).
  assert (freq_table_scan
            (entries ++ [ {| driver_data := 0;
                             frequency := CPUFREQ_TABLE_END |} ])
            target (p_cur policy) = target) as ->.
  { assert ({| driver_data := k; frequency := target |} ∈ entries) as Hin.
    { apply list_elem_of_lookup.
      exists (Z.to_nat (num_pstates zcpu) - 1 - Z.to_nat k)%nat.
      subst entries. rewrite build_freq_entries_lookup by lia.
      replace (Z.of_nat (Z.to_nat (num_pstates zcpu) - 1
                         - (Z.to_nat (num_pstates zcpu) - 1 - Z.to_nat k)))
        with k by lia.
      rewrite Hf. reflexivity. }
    apply list_elem_of_split in Hin as (pre & post & Hsplit).
    rewrite Hsplit, <- app_assoc. simpl.
    apply freq_table_scan_exact; [| reflexivity |].
    - apply Forall_forall. intros e He.
      assert (e ∈ entries) as He'
        by (rewrite Hsplit; apply elem_of_app; left; exact He).
      apply build_freq_entries_elem in He' as (j & Hj & ->). simpl.
      apply Hend. lia.
    - rewrite <- Hf. apply Hend. lia. }
  assert (apply_target_limits zcpu target = Some target) as ->.
  { unfold apply_target_limits. rewrite Hst, Hio.
    destruct (perf_target zcpu); reflexivity. }
  destruct (find_pstate_found (Z.to_nat (num_pstates zcpu)) target zcpu 0 k)
    as (k' & Hk' & Hfk & ->); [lia | lia | exact Hf |].
  unfold smp_call_function_single, zen_write_pstate_local. cbn [fst snd].
  assert (cur_pstate (set_cur_pstate k' zcpu) = k') as Hc
    by (destruct zcpu; reflexivity).
  assert (num_pstates (set_cur_pstate k' zcpu) = num_pstates zcpu) as Hn
    by (destruct zcpu; reflexivity).
  assert (pstates (set_cur_pstate k' zcpu) = pstates zcpu) as Hp
    by (destruct zcpu; reflexivity).
  rewrite Hc, Hn, Hp, Hfk.
  destruct (k' <? num_pstates zcpu) eqn:E; [|lia].
  rewrite Z.eqb_refl.
  eexists _, _. split; [reflexivity|].
  destruct zcpu; cbn in *. repeat split; (lia || assumption).
Qed.

Lemma fast_switch_exact_match_witness :
  exists zcpu' msr',
    zen_freq_fast_switch_lockless (mk_policy 0 700000 300000 700000)
      (Some (example_zcpu default_params)) 500000 true 0
    = Some (500000, Some zcpu', msr')
    /\ 0 <= cur_pstate zcpu' <= 1
    /\ freq (pstate_at (pstates zcpu') (cur_pstate zcpu')) = 500000
    /\ cur_freq zcpu' = 500000.
Proof.
  apply (fast_switch_exact_match (mk_policy 0 700000 300000 700000)
           (example_zcpu default_params) 500000 0 1);
    try (vm_compute; repeat split; (discriminate || reflexivity)).
  intros j Hj.
  assert (j = 0 \/ j = 1 \/ j = 2) as [->|[->| ->]]
    by (change (num_pstates (example_zcpu default_params)) with 3 in Hj; lia);
    vm_compute; discriminate.
Defined.

Lemma non_thermal_set_last_temp v z :
  non_thermal_fields (set_last_temp v z) = non_thermal_fields z.
Proof. destruct z; reflexivity. Qed.

Lemma non_thermal_set_thermal_integral v z :
  non_thermal_fields (set_thermal_integral v z) = non_thermal_fields z.
Proof. destruct z; reflexivity. Qed.

Lemma non_thermal_pi_controller mp z temp :
  non_thermal_fields (zen_thermal_pi_controller mp z temp).2
  = non_thermal_fields z.
Proof.
  unfold zen_thermal_pi_controller. cbv zeta. unfold snd.
  apply non_thermal_set_thermal_integral.
Qed.

Lemma non_thermal_check_store ns v z :
  non_thermal_fields
    (set_thermal_state ns
       (if v =? thermal_throttle_perf z then z
        else
          set_stats
            (set_thermal_events
               (u64 (thermal_events
                       (stats (set_thermal_throttle_perf v z)) + 1))
               (stats (set_thermal_throttle_perf v z)))
            (set_thermal_throttle_perf v z)))
  = non_thermal_fields z.
Proof. destruct (v =? _); destruct z; reflexivity. Qed.

Lemma non_thermal_check_cpu mp zcpu therm indet :
  non_thermal_fields (zen_thermal_check_cpu mp zcpu therm indet)
  = non_thermal_fields zcpu.
Proof.
  unfold zen_thermal_check_cpu.
  set (temp := zen_read_temperature therm).
  destruct (temp =? 0); [reflexivity|].
  cbv zeta.
  pose proof (non_thermal_pi_controller mp (set_last_temp temp zcpu) temp)
    as Hpi.
  destruct (zen_thermal_pi_controller mp (set_last_temp temp zcpu) temp)
    as [perf zpi].
  unfold snd in Hpi.
  destruct (thermal_state (set_last_temp temp zcpu)); cbv beta iota;
    repeat (match goal with
            | |- context [if ?c then (?a, ?b) else _] => destruct c
            end; cbv beta iota);
    rewrite non_thermal_check_store;
    rewrite ?Hpi, ?non_thermal_set_thermal_integral;
    apply non_thermal_set_last_temp.
Qed.

Lemma stats_set_last_temp v z :
  stats (set_last_temp v z) = stats z
  /\ thermal_throttle_perf (set_last_temp v z) = thermal_throttle_perf z.
Proof. destruct z; auto. Qed.

Lemma stats_pi_controller mp z temp :
  stats (zen_thermal_pi_controller mp z temp).2 = stats z
  /\ thermal_throttle_perf (zen_thermal_pi_controller mp z temp).2
     = thermal_throttle_perf z.
Proof.
  unfold zen_thermal_pi_controller. cbv zeta. unfold snd.
  destruct z; auto.
Qed.

Lemma stats_check_store ns v z :
  let z' :=
    set_thermal_state ns
      (if v =? thermal_throttle_perf z then z
       else
         set_stats
           (set_thermal_events
              (u64 (thermal_events
                      (stats (set_thermal_throttle_perf v z)) + 1))
              (stats (set_thermal_throttle_perf v z)))
           (set_thermal_throttle_perf v z)) in
  non_thermal_stats z' = non_thermal_stats z
  /\ thermal_events (stats z')
     = (if thermal_throttle_perf z' =? thermal_throttle_perf z
        then thermal_events (stats z)
        else u64 (thermal_events (stats z) + 1)).
Proof.
  cbv zeta. destruct (v =? thermal_throttle_perf z) eqn:E.
  - assert (thermal_throttle_perf (set_thermal_state ns z)
            = thermal_throttle_perf z) as -> by (destruct z; reflexivity).
    rewrite Z.eqb_refl. destruct z; auto.
  - assert (thermal_throttle_perf
              (set_thermal_state ns
                 (set_stats
                    (set_thermal_events
                       (u64 (thermal_events
                               (stats (set_thermal_throttle_perf v z)) + 1))
                       (stats (set_thermal_throttle_perf v z)))
                    (set_thermal_throttle_perf v z))) = v) as ->
      by (destruct z; reflexivity).
    rewrite E. destruct z as [? ? ? ? ? ? ? ? ? ? ? ? ? ? ? ? ? ? ? ? ? ? st].
    destruct st. auto.
Qed.

(** X10.  The thermal guard writes the thermal members and one counter
    only.  A poll leaves the P-state table, the frequency range, the
    performance range, the current P-state, the applied frequency, the
    performance target, the frequency table, the I/O boost flag and the
    dynamic EPP as they were, and so the counters of transitions, I/O
    boosts and voltage clamps; [thermal_events] grows by one exactly when
    the poll changes the stored ceiling. *)
Theorem thermal_check_frame mp zcpu therm indet :
  let zcpu' := zen_thermal_check_cpu mp zcpu therm indet in
  non_thermal_fields zcpu' = non_thermal_fields zcpu
  /\ non_thermal_stats zcpu' = non_thermal_stats zcpu
  /\ thermal_events (stats zcpu')
     = (if thermal_throttle_perf zcpu' =? thermal_throttle_perf zcpu
        then thermal_events (stats zcpu)
        else u64 (thermal_events (stats zcpu) + 1)).
Proof.
  cbv zeta. split; [apply non_thermal_check_cpu|].
  unfold zen_thermal_check_cpu.
  set (temp := zen_read_temperature therm).
  destruct (temp =? 0); [rewrite Z.eqb_refl; auto|].
  cbv zeta.
  pose proof (stats_set_last_temp temp zcpu) as [Hls Hlp].
  pose proof (stats_pi_controller mp (set_last_temp temp zcpu) temp)
    as [Hps Hpp].
  rewrite Hls in Hps. rewrite Hlp in Hpp.
  destruct (zen_thermal_pi_controller mp (set_last_temp temp zcpu) temp)
    as [perf zpi].
  unfold snd in Hps, Hpp.
  destruct (thermal_state (set_last_temp temp zcpu)); cbv beta iota;
    repeat (match goal with
            | |- context [if ?c then (?a, ?b) else _] => destruct c
            end; cbv beta iota);
    match goal with
    | |- context [set_thermal_state ?ns (if ?v =? _ then ?z else _)] =>
        destruct (stats_check_store ns v z) as [-> ->];
        assert (stats z = stats zcpu
                /\ thermal_throttle_perf z = thermal_throttle_perf zcpu)
          as [Hs Hp]
          by first [ split; assumption
                   | destruct zcpu; split; reflexivity ]
    end;
    unfold non_thermal_stats; rewrite Hs, Hp; auto.
Qed.

Lemma perf_to_freq_lowest lo hi minf maxf :
  u32 (hi - lo) <> 0 -> 0 <= minf < 2 ^ 32 ->
  ZEN_PERF_TO_FREQ lo lo hi minf maxf = Some minf.
Proof.
  intros Hd Hm. unfold ZEN_PERF_TO_FREQ.
  destruct (u32 (hi - lo) =? 0) eqn:E; [lia|].
  rewrite Z.sub_diag. change (u32 0) with 0.
  rewrite Z.mul_0_r. change (u32 0) with 0.
  rewrite Z.div_0_l by lia. rewrite Z.add_0_r, u32_small by lia.
  reflexivity.
Qed.

(** X11.  Hard throttling caps the selector: after a poll that reads the
    hard limit (itself at least the hysteresis) or more on a core in
    Normal, SoftThrottle or HardThrottle, with a performance target
    installed and no I/O boost, the selector on an online CPU returns at
    most [min_freq], whatever is requested. *)
Theorem hard_throttle_caps_selector mp zcpu therm indet policy target msr
    table :
  thermal_state zcpu <> ZEN_THERMAL_RECOVERY ->
  zen_read_temperature therm <> 0 ->
  ZEN_THERMAL_HYSTERESIS <= zen_freq_hard_temp mp
    <= zen_read_temperature therm ->
  perf_target zcpu <> None ->
  io_boost_active zcpu = false ->
  freq_table_rcu zcpu = Some table ->
  u32 (highest_perf zcpu - lowest_perf zcpu) <> 0 ->
  0 <= min_freq zcpu < 2 ^ 32 ->
  let zcpu' := zen_thermal_check_cpu mp zcpu therm indet in
  thermal_state zcpu' = ZEN_THERMAL_HARD_THROTTLE
  /\ exists f,
       returned_freq
         (zen_freq_fast_switch_lockless policy (Some zcpu') target true msr)
       = Some f
       /\ f <= min_freq zcpu.
Proof.
  intros Hst Hv Hh Ht Hio Htab Hd Hm.
  pose proof (non_thermal_check_cpu mp zcpu therm indet) as Hfr.
  assert (thermal_state (zen_thermal_check_cpu mp zcpu therm indet)
          = ZEN_THERMAL_HARD_THROTTLE
          /\ thermal_throttle_perf (zen_thermal_check_cpu mp zcpu therm indet)
             = lowest_perf zcpu) as [Hs' Hc'].
  { unfold zen_thermal_check_cpu.
    set (temp := zen_read_temperature therm) in *.
    destruct (temp =? 0) eqn:E; [lia|].
    cbv zeta. rewrite (proj1 (set_last_temp_fields temp zcpu)).
    assert ((temp >=? zen_freq_hard_temp mp) = true) as Hge
      by (rewrite Z.geb_leb; lia).
    assert ((temp <? u32 (zen_freq_hard_temp mp - ZEN_THERMAL_HYSTERESIS))
            = false) as Hlt.
    { unfold ZEN_THERMAL_HYSTERESIS in *.
      pose proof (read_temperature_range therm) as Hr. fold temp in Hr.
      rewrite u32_small by (change (2 ^ 32) with 4294967296; lia). lia. }
    destruct (thermal_state zcpu); try contradiction; cbv beta iota;
      rewrite ?Hge, ?Hlt; cbv beta iota;
      match goal with
      | |- context [set_thermal_state ?ns (if ?v =? _ then ?z else _)] =>
          destruct (thermal_check_store ns v z) as (-> & -> & _)
      end;
      (split; [reflexivity|]);
      apply (proj2 (proj2 (set_last_temp_fields temp zcpu))). }
  split; [exact Hs'|].
  set (z' := zen_thermal_check_cpu mp zcpu therm indet) in *.
  unfold non_thermal_fields in Hfr.
  injection Hfr as _ _ _ _ _ Hmx Hmn Hnom Hhi Hlo _ _ _ _ Hpt Htb Hio' _.
  unfold zen_freq_fast_switch_lockless. rewrite Htb, Htab.
  unfold apply_target_limits.
  rewrite Hpt, Hs', Hc', Hhi, Hlo, Hmn, Hmx, Hio', Hio.
  destruct (perf_target zcpu) as [t|]; [|contradiction].
  rewrite perf_to_freq_lowest by assumption.
  cbn [andb]. unfold smp_call_function_single.
  destruct (zen_write_pstate_local _ _) as [zw mw]. cbn.
  eexists. split; [reflexivity|].
  destruct (_ >? min_freq zcpu) eqn:E; lia.
Qed.

Lemma hard_throttle_caps_selector_witness :
  exists f,
    returned_freq
      (zen_freq_fast_switch_lockless (mk_policy 0 700000 300000 700000)
         (Some example_hard_zcpu) 700000 true 0)
    = Some f
    /\ f <= 300000.
Proof.
  apply (hard_throttle_caps_selector default_params
           (example_zcpu default_params) (therm_sample 95) 0
           (mk_policy 0 700000 300000 700000) 700000 0
           (default [] (freq_table_rcu (example_zcpu default_params))));
    vm_compute; repeat split; (discriminate || reflexivity).
Defined.

(** X12.  An active I/O boost overrides the thermal cap: with a
    performance target installed and the boost flag set, the selector on
    an online CPU returns at least the nominal frequency in every thermal
    state, HardThrottle included. *)
Theorem io_boost_overrides_thermal_cap policy zcpu target msr table :
  io_boost_active zcpu = true ->
  perf_target zcpu <> None ->
  freq_table_rcu zcpu = Some table ->
  u32 (highest_perf zcpu - lowest_perf zcpu) <> 0 ->
  exists f,
    returned_freq
      (zen_freq_fast_switch_lockless policy (Some zcpu) target true msr)
    = Some f
    /\ nominal_freq zcpu <= f.
Proof.
  intros Hio Ht Htab Hd.
  unfold zen_freq_fast_switch_lockless. rewrite Htab.
  unfold apply_target_limits, ZEN_PERF_TO_FREQ. rewrite Hio.
  destruct (perf_target zcpu) as [t|]; [|contradiction].
  destruct (u32 (highest_perf zcpu - lowest_perf zcpu) =? 0) eqn:E; [lia|].
  cbn [andb].
  set (best := freq_table_scan table target (p_cur policy)).
  assert (forall c : Z,
            nominal_freq zcpu
            <= (if c <? nominal_freq zcpu then nominal_freq zcpu else c))
    as Hc by (intros c; destruct (c <? _) eqn:?; lia).
  unfold smp_call_function_single.
  destruct (thermal_state zcpu);
    destruct (zen_write_pstate_local _ _) as [zw mw]; cbn;
    (eexists; split; [reflexivity | apply Hc]).
Qed.

Lemma io_boost_overrides_thermal_cap_witness :
  exists f,
    returned_freq
      (zen_freq_fast_switch_lockless (mk_policy 0 300000 300000 700000)
         (Some (set_io_boost_active true example_hard_zcpu)) 300000 true 0)
    = Some f
    /\ 700000 <= f.
Proof.
  apply (io_boost_overrides_thermal_cap (mk_policy 0 300000 300000 700000)
           (set_io_boost_active true example_hard_zcpu) 300000 0
           (default [] (freq_table_rcu example_hard_zcpu)));
    vm_compute; (discriminate || reflexivity).
Defined.

(** ** Utilization callbacks *)

Lemma s64_small x : - 2 ^ 63 <= x < 2 ^ 63 -> s64 x = x.
Proof. intros H. unfold s64. rewrite Z.mod_small; lia. Qed.

Lemma u64_small x : 0 <= x < 2 ^ 64 -> u64 x = x.
Proof. intros H. unfold u64. apply Z.mod_small. lia. Qed.

Lemma time_after_spec a b :
  0 <= a < 2 ^ 63 -> 0 <= b < 2 ^ 63 -> time_after a b = (b <? a).
Proof.
  intros Ha Hb. unfold time_after. rewrite s64_small by lia.
  destruct (b - a <? 0) eqn:E1; destruct (b <? a) eqn:E2; lia.
Qed.

(** What one call of [zen_io_boost_check] does, by cases on the jump of
    the I/O wait counter. *)
Lemma io_boost_check_cases msecs jiffies zcpu uf io_wait :
  let d := msecs ZEN_IO_BOOST_DURATION_MS in
  let st := zen_io_boost_check msecs jiffies (zcpu, uf) io_wait in
  0 <= jiffies < 2 ^ 63 -> 0 <= d -> jiffies + d < 2 ^ 63 ->
  0 <= io_boost_expire uf < 2 ^ 63 ->
  last_io_wait st.2 = io_wait
  /\ util_low_since st.2 = util_low_since uf
  /\ dynamic_epp st.1 = dynamic_epp zcpu
  /\ (if u64 (io_wait - last_io_wait uf) >? NSEC_PER_USEC * 100
      then io_boost_active st.1 = true
           /\ io_boost_expire st.2 = jiffies + d
           /\ io_boosts (stats st.1) = u64 (io_boosts (stats zcpu) + 1)
      else io_boost_active st.1
           = io_boost_active zcpu && negb (io_boost_expire uf <? jiffies)
           /\ io_boost_expire st.2 = io_boost_expire uf
           /\ io_boosts (stats st.1) = io_boosts (stats zcpu)).
Proof.
  intros d st Hj Hd Hjd He. subst st. unfold zen_io_boost_check.
  cbv zeta. fold d.
  destruct (u64 (io_wait - last_io_wait uf) >? NSEC_PER_USEC * 100).
  - rewrite (u64_small (jiffies + d)) by lia.
    destruct zcpu as [? ? ? ? ? ? ? ? ? ? ? ? ? ? ? ? ? ? ? ? ? ? st].
    destruct st, uf. cbn.
    rewrite time_after_spec by lia.
    destruct (jiffies + d <? jiffies) eqn:E; [lia|].
    cbn. auto 8.
  - destruct zcpu as [? ? ? ? ? ? ? ? ? ? ? ? ? ? ? ? ? ? ? ? act ? st].
    destruct st, uf. cbn in *.
    rewrite time_after_spec by lia.
    destruct act; cbn; [|auto 8].
    destruct (_ <? jiffies); cbn; auto 8.
Qed.

(** X13.  The I/O boost window.  A jump of the I/O wait counter by more
    than 100 microseconds activates the boost, to expire [d] ticks later
    ([d] being 50 ms in ticks), and counts it.  A later sample without
    such a jump leaves the boost active exactly when the tick counter has
    not passed the expiry time; the boost is thus cleared only by a
    sample taken after the window. *)
Theorem io_boost_window msecs zcpu uf t0 t1 w1 w2 :
  let d := msecs ZEN_IO_BOOST_DURATION_MS in
  0 <= d -> 0 <= t0 <= t1 -> t1 + d < 2 ^ 63 ->
  0 <= io_boost_expire uf < 2 ^ 63 ->
  100000 < u64 (w1 - last_io_wait uf) ->
  u64 (w2 - w1) <= 100000 ->
  let st1 := zen_io_boost_check msecs t0 (zcpu, uf) w1 in
  let st2 := zen_io_boost_check msecs t1 st1 w2 in
  io_boost_active st1.1 = true
  /\ io_boost_expire st1.2 = t0 + d
  /\ io_boosts (stats st1.1) = u64 (io_boosts (stats zcpu) + 1)
  /\ io_boost_active st2.1 = bool_decide (t1 <= t0 + d)
  /\ io_boosts (stats st2.1) = io_boosts (stats st1.1).
Proof.
  intros d Hd Ht Ht1 He Hj1 Hj2 st1 st2.
  pose proof (io_boost_check_cases msecs t0 zcpu uf w1) as H1.
  cbv zeta in H1. fold d in H1. fold st1 in H1.
  specialize (H1 ltac:(lia) Hd ltac:(lia) He).
  destruct H1 as (Hl1 & _ & _ & H1).
  unfold NSEC_PER_USEC in H1.
  destruct (u64 (w1 - last_io_wait uf) >? 1000 * 100) eqn:E1; [|lia].
  destruct H1 as (Ha1 & He1 & Hb1).
  pose proof (io_boost_check_cases msecs t1 st1.1 st1.2 w2) as H2.
  cbv zeta in H2. fold d in H2.
  replace (st1.1, st1.2) with st1 in H2 by (destruct st1; reflexivity).
  fold st2 in H2.
  specialize (H2 ltac:(lia) Hd ltac:(lia) ltac:(lia)).
  destruct H2 as (_ & _ & _ & H2).
  rewrite Hl1 in H2. unfold NSEC_PER_USEC in H2.
  destruct (u64 (w2 - w1) >? 1000 * 100) eqn:E2; [lia|].
  destruct H2 as (Ha2 & _ & Hb2).
  rewrite Ha1, He1 in Ha2.
  repeat split; try assumption.
  rewrite Ha2. cbn [andb].
  destruct (t0 + d <? t1) eqn:E3.
  - rewrite bool_decide_eq_false_2 by lia. reflexivity.
  - rewrite bool_decide_eq_true_2 by lia. reflexivity.
Qed.

Lemma io_boost_window_witness :
  let uf := mk_util_fields 0 0 0 in
  let st1 :=
    zen_io_boost_check (fun ms => ms / 4) 1000
      (example_zcpu default_params, uf) 150000 in
  let st2 := zen_io_boost_check (fun ms => ms / 4) 1013 st1 150000 in
  io_boost_active st1.1 = true /\ io_boost_active st2.1 = false.
Proof.
  destruct (io_boost_window (fun ms => ms / 4) (example_zcpu default_params)
              (mk_util_fields 0 0 0) 1000 1013 150000 150000)
    as (H1 & _ & _ & H4 & _);
    [vm_compute; repeat split; (discriminate || reflexivity)..|].
  cbv zeta. split; [exact H1 | rewrite H4; reflexivity].
Defined.

(** X14.  The jump is computed in unsigned 64-bit arithmetic: a sample of
    the I/O wait counter that is lower than the previous one (by less
    than [2^64 - 100000]) counts as a jump and activates the boost. *)
Theorem io_boost_on_decreasing_sample msecs jiffies zcpu uf io_wait :
  let d := msecs ZEN_IO_BOOST_DURATION_MS in
  0 <= jiffies < 2 ^ 63 -> 0 <= d -> jiffies + d < 2 ^ 63 ->
  0 <= io_boost_expire uf < 2 ^ 63 ->
  0 <= io_wait < last_io_wait uf -> last_io_wait uf < 2 ^ 64 ->
  last_io_wait uf - io_wait < 2 ^ 64 - 100000 ->
  let st := zen_io_boost_check msecs jiffies (zcpu, uf) io_wait in
  io_boost_active st.1 = true /\ io_boost_expire st.2 = jiffies + d.
Proof.
  intros d Hj Hd Hjd He Hw Hl Hdiff st.
  pose proof (io_boost_check_cases msecs jiffies zcpu uf io_wait) as H.
  cbv zeta in H. fold d in H. fold st in H.
  specialize (H Hj Hd Hjd He). destruct H as (_ & _ & _ & H).
  assert (u64 (io_wait - last_io_wait uf)
          = io_wait - last_io_wait uf + 2 ^ 64) as Hu.
  { unfold u64.
    rewrite <- (Z.mod_add (io_wait - last_io_wait uf) 1 (2 ^ 64)) by lia.
    rewrite Z.mod_small by lia. lia. }
  rewrite Hu in H. unfold NSEC_PER_USEC in H.
  destruct (_ >? 1000 * 100) eqn:E; [|lia].
  destruct H as (? & ? & _). split; assumption.
Qed.

Lemma io_boost_on_decreasing_sample_witness :
  let st :=
    zen_io_boost_check (fun ms => ms / 4) 1000
      (example_zcpu default_params, mk_util_fields 0 500000 0) 400000 in
  io_boost_active st.1 = true /\ io_boost_expire st.2 = 1012.
Proof.
  apply (io_boost_on_decreasing_sample (fun ms => ms / 4) 1000
           (example_zcpu default_params) (mk_util_fields 0 500000 0) 400000);
    vm_compute; repeat split; (discriminate || reflexivity).
Defined.

(** X15.  [zen_io_boost_should_boost] refuses a zero total; for a
    positive total, when neither the product [io_wait * 100] overflows 64
    bits nor the quotient 32 bits, it holds exactly when the I/O wait is
    at least a twentieth of the total. *)
Theorem io_boost_should_boost_spec io_wait total :
  zen_io_boost_should_boost io_wait 0 = false
  /\ (0 < total -> 0 <= io_wait -> io_wait * 100 < 2 ^ 64 ->
      io_wait * 100 < total * 2 ^ 32 ->
      (zen_io_boost_should_boost io_wait total = true
       <-> total <= 20 * io_wait)).
Proof.
  split; [reflexivity|].
  intros Ht Hw Hov Hq. unfold zen_io_boost_should_boost.
  destruct (total =? 0) eqn:E; [lia|].
  rewrite (u64_small (io_wait * 100)) by lia.
  assert (0 <= io_wait * 100 / total < 2 ^ 32) as Hr.
  { split; [apply Z.div_pos; lia|].
    apply Z.div_lt_upper_bound; lia. }
  rewrite u32_small by exact Hr.
  unfold ZEN_IO_BOOST_MIN_UTIL. rewrite Z.geb_leb, Z.leb_le.
  split.
  - intros H5.
    pose proof (Z.mul_div_le (io_wait * 100) total Ht). nia.
  - intros H20. apply Z.div_le_lower_bound; lia.
Qed.

Lemma io_boost_should_boost_spec_witness :
  zen_io_boost_should_boost 5 100 = true
  /\ zen_io_boost_should_boost 4 100 = false.
Proof.
  destruct (io_boost_should_boost_spec 5 100) as [_ H5].
  destruct (io_boost_should_boost_spec 4 100) as [_ H4].
  split.
  - apply H5; vm_compute; (discriminate || reflexivity).
  - destruct (zen_io_boost_should_boost 4 100) eqn:E; [|reflexivity].
    exfalso.
    assert (100 <= 20 * 4) as Habs
      by (apply H4; vm_compute; (discriminate || reflexivity)).
    vm_compute in Habs. apply Habs. reflexivity.
Defined.

Lemma store_dynamic_epp_fields v z :
  dynamic_epp (store_dynamic_epp v z) = v
  /\ io_boost_active (store_dynamic_epp v z) = io_boost_active z
  /\ stats (store_dynamic_epp v z) = stats z.
Proof.
  unfold store_dynamic_epp. destruct (v =? dynamic_epp z) eqn:E.
  - apply Z.eqb_eq in E. auto.
  - destruct z; cbn. auto.
Qed.

(** What one call of [zen_epp_update_dynamic] does. *)
Lemma epp_update_cases msecs mode jiffies zcpu uf util :
  let d := msecs ZEN_EPP_LOW_UTIL_DELAY_MS in
  let mode_epp :=
    if mode =? ZEN_FREQ_MODE_POWERSAVE then ZEN_EPP_POWERSAVE
    else if mode =? ZEN_FREQ_MODE_PERFORMANCE then ZEN_EPP_PERFORMANCE
    else ZEN_EPP_BALANCE in
  let st := zen_epp_update_dynamic msecs mode jiffies (zcpu, uf) util in
  dynamic_epp st.1
  = (if util <? ZEN_UTIL_LOW_THRESHOLD then
       if util_low_since uf =? 0 then mode_epp
       else if time_after jiffies (u64 (util_low_since uf + d))
            then ZEN_EPP_POWERSAVE
       else mode_epp
     else if util >? ZEN_UTIL_HIGH_THRESHOLD then ZEN_EPP_PERFORMANCE
     else mode_epp)
  /\ util_low_since st.2
     = (if util <? ZEN_UTIL_LOW_THRESHOLD then
          if util_low_since uf =? 0 then jiffies else util_low_since uf
        else 0)
  /\ io_boost_active st.1 = io_boost_active zcpu
  /\ stats st.1 = stats zcpu
  /\ last_io_wait st.2 = last_io_wait uf
  /\ io_boost_expire st.2 = io_boost_expire uf.
Proof.
  intros d mode_epp st. subst st. unfold zen_epp_update_dynamic.
  cbv zeta. fold d.
  unfold ZEN_UTIL_LOW_THRESHOLD, ZEN_UTIL_HIGH_THRESHOLD.
  destruct (util <? 10) eqn:E1.
  - assert ((util >? 80) = false) as -> by lia.
    fold mode_epp.
    destruct (util_low_since uf =? 0) eqn:E2;
      [|destruct (time_after jiffies _)]; cbn [fst snd];
      destruct (store_dynamic_epp_fields mode_epp zcpu) as (? & ? & ?);
      destruct (store_dynamic_epp_fields ZEN_EPP_POWERSAVE zcpu)
        as (? & ? & ?);
      destruct uf; cbn; auto 8.
  - destruct (util >? 80) eqn:E2; fold mode_epp; cbn [fst snd];
      destruct (store_dynamic_epp_fields mode_epp zcpu) as (? & ? & ?);
      destruct (store_dynamic_epp_fields ZEN_EPP_PERFORMANCE zcpu)
        as (? & ? & ?);
      destruct uf; cbn; auto 8.
Qed.

(** X16.  The low-utilization timer of the dynamic EPP.  A first sample
    below 10 percent at a non-zero tick starts the timer and keeps the
    EPP of the operating mode; a second such sample switches to the
    power-saving EPP exactly when more than [d] ticks have passed ([d]
    being 500 ms in ticks), whatever the operating mode. *)
Theorem epp_low_utilization_timer msecs mode zcpu uf t0 t1 u0 u1 :
  let d := msecs ZEN_EPP_LOW_UTIL_DELAY_MS in
  let mode_epp :=
    if mode =? ZEN_FREQ_MODE_POWERSAVE then ZEN_EPP_POWERSAVE
    else if mode =? ZEN_FREQ_MODE_PERFORMANCE then ZEN_EPP_PERFORMANCE
    else ZEN_EPP_BALANCE in
  0 <= d -> 0 < t0 <= t1 -> t1 < 2 ^ 63 -> t0 + d < 2 ^ 63 ->
  util_low_since uf = 0 ->
  u0 < ZEN_UTIL_LOW_THRESHOLD -> u1 < ZEN_UTIL_LOW_THRESHOLD ->
  let st1 := zen_epp_update_dynamic msecs mode t0 (zcpu, uf) u0 in
  let st2 := zen_epp_update_dynamic msecs mode t1 st1 u1 in
  util_low_since st1.2 = t0
  /\ dynamic_epp st1.1 = mode_epp
  /\ util_low_since st2.2 = t0
  /\ dynamic_epp st2.1
     = (if t0 + d <? t1 then ZEN_EPP_POWERSAVE else mode_epp).
Proof.
  intros d mode_epp Hd Ht Ht1 Htd Hs Hu0 Hu1. cbv zeta.
  pose proof (epp_update_cases msecs mode t0 zcpu uf u0) as H1.
  cbv zeta in H1.
  set (st1 := zen_epp_update_dynamic msecs mode t0 (zcpu, uf) u0) in *.
  destruct H1 as (He1 & Hs1 & _).
  rewrite Hs in He1. rewrite Hs in Hs1.
  destruct (u0 <? ZEN_UTIL_LOW_THRESHOLD) eqn:E0; [|lia].
  change (0 =? 0) with true in He1, Hs1. cbv iota in He1, Hs1.
  pose proof (epp_update_cases msecs mode t1 st1.1 st1.2 u1) as H2.
  cbv zeta in H2.
  replace (st1.1, st1.2) with st1 in H2 by (destruct st1; reflexivity).
  set (st2 := zen_epp_update_dynamic msecs mode t1 st1 u1) in *.
  destruct H2 as (He2 & Hs2 & _).
  rewrite Hs1 in He2. rewrite Hs1 in Hs2.
  destruct (u1 <? ZEN_UTIL_LOW_THRESHOLD) eqn:E1; [|lia].
  destruct (t0 =? 0) eqn:E2; [lia|].
  change (msecs ZEN_EPP_LOW_UTIL_DELAY_MS) with d in He2.
  rewrite (u64_small (t0 + d)) in He2 by lia.
  rewrite time_after_spec in He2 by lia.
  repeat split; assumption.
Qed.

Lemma epp_low_utilization_timer_witness :
  let uf := mk_util_fields 0 0 0 in
  let st1 :=
    zen_epp_update_dynamic (fun ms => ms / 4) ZEN_FREQ_MODE_PERFORMANCE 1000
      (example_zcpu default_params, uf) 5 in
  let st2 :=
    zen_epp_update_dynamic (fun ms => ms / 4) ZEN_FREQ_MODE_PERFORMANCE 1126
      st1 5 in
  dynamic_epp st1.1 = ZEN_EPP_PERFORMANCE
  /\ dynamic_epp st2.1 = ZEN_EPP_POWERSAVE.
Proof.
  destruct (epp_low_utilization_timer (fun ms => ms / 4)
              ZEN_FREQ_MODE_PERFORMANCE (example_zcpu default_params)
              (mk_util_fields 0 0 0) 1000 1126 5 5)
    as (_ & H2 & _ & H4);
    [vm_compute; repeat split; (discriminate || reflexivity)..|].
  cbv zeta. split; [exact H2 | rewrite H4; reflexivity].
Defined.

(** X17.  A sample of 10 percent or more resets the low-utilization
    timer: after it, a sample below 10 percent at a non-zero tick starts
    the timer afresh and leaves the EPP of the operating mode, however
    long utilization had been low before. *)
Theorem epp_timer_reset msecs mode st0 t1 t2 u1 u2 :
  let mode_epp :=
    if mode =? ZEN_FREQ_MODE_POWERSAVE then ZEN_EPP_POWERSAVE
    else if mode =? ZEN_FREQ_MODE_PERFORMANCE then ZEN_EPP_PERFORMANCE
    else ZEN_EPP_BALANCE in
  ZEN_UTIL_LOW_THRESHOLD <= u1 -> u2 < ZEN_UTIL_LOW_THRESHOLD -> t2 <> 0 ->
  let st1 := zen_epp_update_dynamic msecs mode t1 st0 u1 in
  let st2 := zen_epp_update_dynamic msecs mode t2 st1 u2 in
  util_low_since st1.2 = 0
  /\ dynamic_epp st1.1
     = (if u1 >? ZEN_UTIL_HIGH_THRESHOLD then ZEN_EPP_PERFORMANCE
        else mode_epp)
  /\ util_low_since st2.2 = t2
  /\ dynamic_epp st2.1 = mode_epp.
Proof.
  intros mode_epp Hu1 Hu2 Ht2. cbv zeta.
  pose proof (epp_update_cases msecs mode t1 st0.1 st0.2 u1) as H1.
  cbv zeta in H1.
  replace (st0.1, st0.2) with st0 in H1 by (destruct st0; reflexivity).
  set (st1 := zen_epp_update_dynamic msecs mode t1 st0 u1) in *.
  destruct H1 as (He1 & Hs1 & _).
  destruct (u1 <? ZEN_UTIL_LOW_THRESHOLD) eqn:E1; [lia|].
  pose proof (epp_update_cases msecs mode t2 st1.1 st1.2 u2) as H2.
  cbv zeta in H2.
  replace (st1.1, st1.2) with st1 in H2 by (destruct st1; reflexivity).
  set (st2 := zen_epp_update_dynamic msecs mode t2 st1 u2) in *.
  destruct H2 as (He2 & Hs2 & _).
  rewrite Hs1 in He2. rewrite Hs1 in Hs2.
  destruct (u2 <? ZEN_UTIL_LOW_THRESHOLD) eqn:E2; [|lia].
  change (0 =? 0) with true in He2, Hs2. cbv iota in He2, Hs2.
  repeat split; assumption.
Qed.

Lemma epp_timer_reset_witness :
  let st0 := (example_zcpu default_params, mk_util_fields 0 0 500) in
  let st1 :=
    zen_epp_update_dynamic (fun ms => ms / 4) ZEN_FREQ_MODE_BALANCE 100000
      st0 90 in
  let st2 :=
    zen_epp_update_dynamic (fun ms => ms / 4) ZEN_FREQ_MODE_BALANCE 100001
      st1 0 in
  dynamic_epp st1.1 = ZEN_EPP_PERFORMANCE
  /\ dynamic_epp st2.1 = ZEN_EPP_BALANCE.
Proof.
  destruct (epp_timer_reset (fun ms => ms / 4) ZEN_FREQ_MODE_BALANCE
              (example_zcpu default_params, mk_util_fields 0 0 500)
              100000 100001 90 0) as (_ & H2 & _ & H4);
    [vm_compute; (discriminate || reflexivity)..|].
  cbv zeta. split; [exact H2 | exact H4].
Defined.

(** X18.  The callback of kernels from 6.6 on feeds the I/O boost
    detector with its time stamp, and only when the [epp] parameter is
    set: with the parameter set, a time stamp more than 100000 beyond the
    previous one activates the boost, whatever the utilization; with the
    parameter clear, the callback leaves the boost flag, its expiry and
    the last I/O wait sample untouched. *)
Theorem update_util_new_boosts_on_elapsed_time msecs mode epp_enabled jiffies
    zcpu uf util max time :
  let d := msecs ZEN_IO_BOOST_DURATION_MS in
  0 <= jiffies < 2 ^ 63 -> 0 <= d -> jiffies + d < 2 ^ 63 ->
  0 <= io_boost_expire uf < 2 ^ 63 ->
  100000 < u64 (time - last_io_wait uf) ->
  exists st,
    zen_freq_update_util_new msecs mode epp_enabled jiffies
      (Some (zcpu, uf)) util max time = Some st
    /\ (if epp_enabled
        then io_boost_active st.1 = true
             /\ io_boost_expire st.2 = jiffies + d
             /\ last_io_wait st.2 = time
        else io_boost_active st.1 = io_boost_active zcpu
             /\ io_boost_expire st.2 = io_boost_expire uf
             /\ last_io_wait st.2 = last_io_wait uf).
Proof.
  intros d Hj Hd Hjd He Hjump. unfold zen_freq_update_util_new.
  pose proof (io_boost_check_cases msecs jiffies zcpu uf time) as Hio.
  cbv zeta in Hio. fold d in Hio. specialize (Hio Hj Hd Hjd He).
  destruct Hio as (Hl & _ & _ & Hio). unfold NSEC_PER_USEC in Hio.
  destruct (u64 (time - last_io_wait uf) >? 1000 * 100) eqn:E; [|lia].
  destruct Hio as (Ha & Hx & _).
  set (st1 := if epp_enabled
              then zen_io_boost_check msecs jiffies (zcpu, uf) time
              else (zcpu, uf)).
  assert (if epp_enabled
          then io_boost_active st1.1 = true
               /\ io_boost_expire st1.2 = jiffies + d
               /\ last_io_wait st1.2 = time
          else io_boost_active st1.1 = io_boost_active zcpu
               /\ io_boost_expire st1.2 = io_boost_expire uf
               /\ last_io_wait st1.2 = last_io_wait uf) as H1
    by (subst st1; destruct epp_enabled; cbn; auto).
  clearbody st1.
  destruct (max >? 0).
  - eexists. split; [reflexivity|].
    pose proof (epp_update_cases msecs mode jiffies st1.1 st1.2
                  (u32 (u64 (util * 100) / max))) as H2.
    cbv zeta in H2.
    replace (st1.1, st1.2) with st1 in H2 by (destruct st1; reflexivity).
    destruct H2 as (_ & _ & -> & _ & -> & ->). exact H1.
  - eexists. split; [reflexivity | exact H1].
Qed.

Lemma update_util_new_boosts_on_elapsed_time_witness :
  exists st,
    zen_freq_update_util_new (fun ms => ms / 4) ZEN_FREQ_MODE_BALANCE true
      1000 (Some (example_zcpu default_params, mk_util_fields 0 0 0))
      50 100 200000 = Some st
    /\ io_boost_active st.1 = true.
Proof.
  destruct (update_util_new_boosts_on_elapsed_time (fun ms => ms / 4)
              ZEN_FREQ_MODE_BALANCE true 1000 (example_zcpu default_params)
              (mk_util_fields 0 0 0) 50 100 200000)
    as (st & E & H & _);
    [vm_compute; repeat split; (discriminate || reflexivity)..|].
  exists st. split; [exact E | exact H].
Defined.

(** ** Applying a P-state *)

Lemma testbit_small p k n :
  0 <= p < 2 ^ k -> 0 <= k <= n -> Z.testbit p n = false.
Proof.
  intros Hp Hk. rewrite <- (Z.mod_small p (2 ^ k)) by lia.
  apply Z.mod_pow2_bits_high. lia.
Qed.

(** The bits of the MSR value that [zen_write_pstate_local] writes. *)
Lemma write_pstate_local_bits zcpu msr n :
  0 <= msr < 2 ^ 64 -> 0 <= cur_pstate zcpu < 64 -> 0 <= n ->
  Z.testbit (zen_write_pstate_local zcpu msr).2 n
  = if n <? 6 then Z.testbit (cur_pstate zcpu) n
    else if n =? 6 then true
    else Z.testbit msr n.
Proof.
  intros Hm Hp Hn. unfold zen_write_pstate_local. cbv zeta. unfold snd.
  change (u64 (Z.lnot 0x3F)) with (Z.shiftl (Z.ones 58) 6).
  change (BIT 6) with (2 ^ 6).
  rewrite !Z.lor_spec, Z.land_spec, Z.shiftl_spec by lia.
  rewrite (Z.pow2_bits_eqb 6 n) by lia.
  destruct (n <? 6) eqn:E1.
  - rewrite (Z.testbit_neg_r _ (n - 6)) by lia.
    assert ((6 =? n) = false) as -> by lia.
    rewrite andb_false_r, orb_false_r. reflexivity.
  - rewrite (testbit_small (cur_pstate zcpu) 6 n) by lia.
    rewrite orb_false_l.
    destruct (n =? 6) eqn:E2.
    + assert ((6 =? n) = true) as -> by lia. apply orb_true_r.
    + assert ((6 =? n) = false) as -> by lia. rewrite orb_false_r.
      rewrite Z.testbit_ones_nonneg by lia.
      destruct (n - 6 <? 58) eqn:E3.
      * apply andb_true_r.
      * rewrite andb_false_r. symmetry.
        apply (testbit_small msr 64 n); lia.
Qed.

(** X19.  The MSR write of [zen_write_pstate_local]: the low six bits of
    the value written are the current P-state index, bit 6 is set, and
    every higher bit is as it was read. *)
Theorem write_pstate_local_msr zcpu msr :
  0 <= msr < 2 ^ 64 -> 0 <= cur_pstate zcpu < 64 ->
  let msr' := (zen_write_pstate_local zcpu msr).2 in
  Z.land msr' 0x3F = cur_pstate zcpu
  /\ Z.testbit msr' 6 = true
  /\ Z.shiftr msr' 7 = Z.shiftr msr 7.
Proof.
  intros Hm Hp msr'. subst msr'. split; [|split].
  - apply Z.bits_inj'. intros n Hn.
    rewrite Z.land_spec, write_pstate_local_bits by assumption.
    change 0x3F with (Z.ones 6). rewrite Z.testbit_ones_nonneg by lia.
    destruct (n <? 6) eqn:E.
    + apply andb_true_r.
    + rewrite andb_false_r. symmetry.
      apply (testbit_small (cur_pstate zcpu) 6 n); lia.
  - rewrite write_pstate_local_bits by (assumption || lia). reflexivity.
  - apply Z.bits_inj'. intros n Hn.
    rewrite !Z.shiftr_spec by lia.
    rewrite write_pstate_local_bits by (assumption || lia).
    destruct (n + 7 <? 6) eqn:E1; [lia|].
    destruct (n + 7 =? 6) eqn:E2; [lia|]. reflexivity.
Qed.

Lemma write_pstate_local_msr_witness :
  let msr' :=
    (zen_write_pstate_local (set_cur_pstate 2 (example_zcpu default_params))
       0xFFFF).2 in
  Z.land msr' 0x3F = 2 /\ Z.shiftr msr' 7 = Z.shiftr 0xFFFF 7.
Proof.
  destruct (write_pstate_local_msr
              (set_cur_pstate 2 (example_zcpu default_params)) 0xFFFF)
    as (H1 & _ & H3);
    [vm_compute; repeat split; (discriminate || reflexivity)..|].
  cbv zeta. split; [exact H1 | exact H3].
Defined.

(** X20.  Setting a P-state by index and reading the frequency back: for
    an index below [num_pstates] on an online CPU,
    [zen_freq_set_pstate_zero_ipi] returns 0, counts a transition, and
    [zen_freq_get] then returns the frequency that
    [zen_freq_get_frequency] gives for that index.  For an index of
    [num_pstates] or more it returns [-EINVAL] and changes nothing. *)
Theorem set_pstate_then_get zcpu pstate msr :
  0 <= pstate ->
  let r := zen_freq_set_pstate_zero_ipi (Some zcpu) pstate true msr in
  if pstate <? num_pstates zcpu then
    r.1.1 = 0
    /\ zen_freq_get r.1.2 = zen_freq_get_frequency zcpu pstate
    /\ cur_pstate <$> r.1.2 = Some pstate
    /\ (fun z => transitions (stats z)) <$> r.1.2
       = Some (u64 (transitions (stats zcpu) + 1))
  else r = (- EINVAL, Some zcpu, msr).
Proof.
  intros Hp. cbv zeta.
  unfold zen_freq_set_pstate_zero_ipi, zen_freq_get_frequency.
  rewrite Z.geb_leb.
  destruct (pstate <? num_pstates zcpu) eqn:E.
  - assert ((num_pstates zcpu <=? pstate) = false) as -> by lia.
    unfold smp_call_function_single, zen_write_pstate_local. cbn [fst snd].
    assert (cur_pstate (set_cur_pstate pstate zcpu) = pstate) as ->
      by (destruct zcpu; reflexivity).
    assert (num_pstates (set_cur_pstate pstate zcpu) = num_pstates zcpu)
      as -> by (destruct zcpu; reflexivity).
    assert (pstates (set_cur_pstate pstate zcpu) = pstates zcpu) as ->
      by (destruct zcpu; reflexivity).
    rewrite E. cbn [Z.eqb].
    destruct zcpu as [? ? ? ? ? ? ? ? ? ? ? ? ? ? ? ? ? ? ? ? ? ? st].
    destruct st. cbn. auto.
  - assert ((num_pstates zcpu <=? pstate) = true) as -> by lia.
    reflexivity.
Qed.

Lemma set_pstate_then_get_witness :
  let r :=
    zen_freq_set_pstate_zero_ipi (Some (example_zcpu default_params)) 1 true
      0 in
  r.1.1 = 0 /\ zen_freq_get r.1.2 = 500000.
Proof.
  pose proof (set_pstate_then_get (example_zcpu default_params) 1 0
                ltac:(vm_compute; discriminate)) as H.
  cbv zeta in H.
  change (1 <? num_pstates (example_zcpu default_params)) with true in H.
  cbv iota in H. destruct H as (H1 & H2 & _).
  cbv zeta. split; [exact H1 | rewrite H2; reflexivity].
Defined.

(** X21.  When the remote call cannot run (the CPU is not online),
    [zen_freq_set_pstate_zero_ipi] returns [-ENXIO] and counts no
    transition, the MSR and the applied frequency are as before, but
    [cur_pstate] already holds the requested index. *)
Theorem set_pstate_offline zcpu pstate msr :
  pstate < num_pstates zcpu ->
  exists zcpu',
    zen_freq_set_pstate_zero_ipi (Some zcpu) pstate false msr
    = (- ENXIO, Some zcpu', msr)
    /\ cur_pstate zcpu' = pstate
    /\ cur_freq zcpu' = cur_freq zcpu
    /\ stats zcpu' = stats zcpu.
Proof.
  intros Hp. unfold zen_freq_set_pstate_zero_ipi.
  rewrite Z.geb_leb.
  assert ((num_pstates zcpu <=? pstate) = false) as -> by lia.
  cbn. eexists. split; [reflexivity|]. destruct zcpu; cbn. auto.
Qed.

Lemma set_pstate_offline_witness :
  exists zcpu',
    zen_freq_set_pstate_zero_ipi (Some (example_zcpu default_params)) 2 false
      0 = (- ENXIO, Some zcpu', 0)
    /\ cur_pstate zcpu' = 2
    /\ cur_freq zcpu' = cur_freq (example_zcpu default_params)
    /\ stats zcpu' = stats (example_zcpu default_params).
Proof.
  apply (set_pstate_offline (example_zcpu default_params) 2 0).
  reflexivity.
Defined.

(** X22.  Suspend and resume.  [zen_freq_suspend] on an online CPU
    selects the last recorded P-state and returns 0, also when the
    remote call fails; [zen_freq_resume] republishes the performance
    target and restores nothing: after it the core is still at that last
    P-state. *)
Theorem suspend_then_resume policy zcpu msr now :
  0 < num_pstates zcpu <= 64 ->
  u32 (max_freq zcpu - min_freq zcpu) <> 0 ->
  let last := num_pstates zcpu - 1 in
  let r1 := zen_freq_suspend (Some zcpu) true msr in
  r1.1.1 = 0
  /\ (zen_freq_suspend (Some zcpu) false msr).1.1 = 0
  /\ exists z2,
       zen_freq_resume policy r1.1.2 true now = Some (0, Some z2)
       /\ cur_pstate z2 = last
       /\ zen_freq_get (Some z2) = freq (pstate_at (pstates zcpu) last).
Proof.
  intros Hn Hd. cbv zeta. unfold zen_freq_suspend.
  destruct (num_pstates zcpu >? 0) eqn:E; [|lia].
  rewrite (u32_small (num_pstates zcpu - 1))
    by (change (2 ^ 32) with 4294967296; lia).
  unfold smp_call_function_single, zen_write_pstate_local. cbn [fst snd].
  split; [reflexivity|]. split; [reflexivity|].
  set (last := num_pstates zcpu - 1).
  assert (cur_pstate (set_cur_pstate last zcpu) = last) as ->
    by (destruct zcpu; reflexivity).
  assert (num_pstates (set_cur_pstate last zcpu) = num_pstates zcpu) as ->
    by (destruct zcpu; reflexivity).
  assert (pstates (set_cur_pstate last zcpu) = pstates zcpu) as ->
    by (destruct zcpu; reflexivity).
  destruct (last <? num_pstates zcpu) eqn:E1; [|lia].
  unfold zen_freq_resume, zen_freq_set_policy, ZEN_FREQ_TO_PERF.
  assert (forall v, max_freq (set_cur_freq v (set_cur_pstate last zcpu))
                    = max_freq zcpu
                    /\ min_freq (set_cur_freq v (set_cur_pstate last zcpu))
                       = min_freq zcpu) as Hf
    by (intros v; destruct zcpu; auto).
  destruct (Hf (freq (pstate_at (pstates zcpu) last))) as [-> ->].
  destruct (u32 (max_freq zcpu - min_freq zcpu) =? 0) eqn:E2; [lia|].
  eexists. split; [reflexivity|].
  destruct zcpu; cbn. auto.
Qed.

Lemma suspend_then_resume_witness :
  exists z2,
    zen_freq_resume (mk_policy 0 0 300000 700000)
      (zen_freq_suspend (Some (example_zcpu default_params)) true 0).1.2
      true 0 = Some (0, Some z2)
    /\ cur_pstate z2 = 2 /\ zen_freq_get (Some z2) = 300000.
Proof.
  destruct (suspend_then_resume (mk_policy 0 0 300000 700000)
              (example_zcpu default_params) 0 0) as (_ & _ & H);
    [vm_compute; repeat split; (discriminate || reflexivity)..|].
  exact H.
Defined.

(** ** Initialisation of a CPU *)

Lemma verify_pstate_no_boost mp ps :
  boost ps = false ->
  let r := zen_voltage_verify_pstate mp ps in
  r.1 = safe r.2
  /\ safe r.2 = (voltage r.2 <=? zen_freq_voltage_max mp)
  /\ voltage r.2 = ZEN_VID_TO_MV (vid r.2)
  /\ boost r.2 = false /\ en r.2 = en ps.
Proof.
  intros Hb. cbv zeta. unfold zen_voltage_verify_pstate.
  destruct ps as [? ? ? ? ? ? ? ? b ?]. simpl in Hb. subst b. simpl.
  destruct (_ >? _) eqn:E; simpl; repeat split; lia.
Qed.

Lemma pstate_at_map_take (f : zen_pstate -> zen_pstate) n l j :
  0 <= j -> (Z.to_nat j < n <= length l)%nat ->
  pstate_at (map f (take n l) ++ drop n l) j = f (pstate_at l j).
Proof.
  intros Hj Hn. unfold pstate_at.
  rewrite lookup_app_l by (rewrite length_map, length_take_le; lia).
  change (map f (take n l)) with (f <$> take n l).
  rewrite list_lookup_fmap, lookup_take_lt by lia.
  destruct (lookup_lt_is_Some_2 l (Z.to_nat j)) as [x ->]; [lia|].
  reflexivity.
Qed.

Lemma count_unsafe_map_verify mp l :
  Forall (fun ps => boost ps = false) l ->
  length (filter (fun ps => safe ps = false)
            (map (fun ps => (zen_voltage_verify_pstate mp ps).2) l))
  = length (filter (fun ps => (zen_voltage_verify_pstate mp ps).1 = false) l).
Proof.
  induction 1 as [|ps l Hps Hl IH]; [reflexivity|].
  simpl map. rewrite !filter_cons.
  destruct (verify_pstate_no_boost mp ps Hps) as (H1 & _).
  rewrite <- H1.
  destruct (decide ((zen_voltage_verify_pstate mp ps).1 = false));
    simpl; rewrite IH; reflexivity.
Qed.

Lemma check_pstates_loop_frame mp n i has_unsafe zcpu :
  let r := for_loop n i (check_pstate_body mp) (has_unsafe, zcpu) in
  min_freq r.2 = min_freq zcpu /\ max_freq r.2 = max_freq zcpu.
Proof.
  cbv zeta.
  apply (for_loop_invariant_idx
           (fun _ (acc : bool * zen_freq_cpu) =>
              min_freq acc.2 = min_freq zcpu
              /\ max_freq acc.2 = max_freq zcpu)
           (check_pstate_body mp) n i (has_unsafe, zcpu)); [|auto].
  intros k [hu z] _ [Hmn Hmx]. unfold check_pstate_body.
  destruct (zen_voltage_verify_pstate mp _) as [[] ps];
    destruct z; simpl in *; auto.
Qed.

(** X23.  What [zen_freq_init_cpu] hands to the governor.  A failed
    initialisation keeps no per-CPU data and leaves the policy as it
    was.  A successful one has recorded between one and eight P-states,
    none of them a boost state; each carries the voltage of its VID and
    is marked safe exactly when that voltage is within
    [zen_freq_voltage_max]; [voltage_clamps] counts the ones marked
    unsafe; and the policy limits are the extreme frequencies found. *)
Theorem init_cpu_voltage_marks mp policy rdmsr has_boost
    alloc_zcpu alloc_table alloc_target :
  let r :=
    zen_freq_init_cpu mp policy rdmsr has_boost alloc_zcpu alloc_table
      alloc_target in
  if r.1.1 =? 0 then
    exists zcpu,
      r.1.2 = Some zcpu
      /\ 0 < num_pstates zcpu <= 8
      /\ (forall j, 0 <= j < num_pstates zcpu ->
            let ps := pstate_at (pstates zcpu) j in
            voltage ps = ZEN_VID_TO_MV (vid ps)
            /\ safe ps = (voltage ps <=? zen_freq_voltage_max mp)
            /\ boost ps = false /\ en ps = true)
      /\ voltage_clamps (stats zcpu)
         = Z.of_nat (length (filter (fun ps => safe ps = false)
                               (take (Z.to_nat (num_pstates zcpu))
                                  (pstates zcpu))))
      /\ p_min r.2 = min_freq zcpu /\ p_max r.2 = max_freq zcpu
      /\ min_freq zcpu <= max_freq zcpu <= 775000
  else r.1.2 = None /\ r.2 = policy.
Proof.
  cbv zeta. unfold zen_freq_init_cpu.
  destruct alloc_zcpu; [|simpl; auto]. simpl negb. cbv iota.
  cbv beta iota zeta delta [zero_zcpu].
  match goal with
  | |- context [zen_freq_get_pstate_info rdmsr has_boost ?z] =>
      pose proof (get_pstate_info_result rdmsr has_boost z eq_refl)
        as (Hd & Hnom & Hret & Hnb & Hst);
      destruct (zen_freq_get_pstate_info rdmsr has_boost z) as [ret z1]
  end.
  cbn [fst snd] in Hd, Hnom, Hret, Hnb, Hst.
  change (stats _ = _) with (stats z1 = zero_stats) in Hst.
  destruct Hd as (Hn & Hlen & _ & Hmax & Hall).
  unfold ZEN_MAX_PSTATES in Hlen.
  destruct (ret =? 0) eqn:Eret; [|simpl; rewrite Eret; auto].
  simpl negb. cbv iota.
  assert (0 < num_pstates z1) as Hpos.
  { destruct (num_pstates z1 >? 0) eqn:E; [lia|]. unfold ENODEV in Hret.
    lia. }
  unfold zen_voltage_check_all_pstates.
  destruct (check_pstates_loop mp (Z.to_nat (num_pstates z1)) 0 false z1)
    as (H1 & H2 & _ & H4 & H5);
    [lia | lia | rewrite Hst; simpl; lia
     | rewrite Hst; simpl; change (2 ^ 64) with 18446744073709551616; lia |].
  destruct (check_pstates_loop_frame mp (Z.to_nat (num_pstates z1)) 0 false
              z1) as [Hmn Hmx].
  destruct (for_loop _ 0 (check_pstate_body mp) _) as [hu z2].
  cbn [fst snd] in H1, H2, H4, H5, Hmn, Hmx |- *.
  rewrite H4, Hnb.
  change (for_loop (Z.to_nat 0) 0 (check_boost_state_body mp) (hu, z2))
    with (hu, z2).
  cbv beta iota zeta.
  change (Z.to_nat 0) with 0%nat in H1, H2.
  rewrite drop_0 in H1, H2. rewrite take_0, app_nil_l, Nat.add_0_l in H1.
  unfold zen_freq_build_freq_table, zen_perf_target_alloc.
  destruct alloc_table; [|simpl; auto]. cbn [negb Z.eqb].
  destruct alloc_target; [|simpl; auto].
  cbn [fst snd Z.eqb p_min p_max].
  set (n := Z.to_nat (num_pstates z1)) in *.
  assert (Forall (fun ps => boost ps = false) (take n (pstates z1))) as Hfa.
  { apply Forall_lookup. intros i ps Hi.
    apply lookup_take_Some in Hi as [Hi Hlt].
    destruct (Hall (Z.of_nat i) ltac:(lia)) as (_ & Hb & _).
    unfold pstate_at in Hb. rewrite Nat2Z.id, Hi in Hb. exact Hb. }
  assert (forall z, pstates (set_perf_target (Some zero_perf_target)
                               (set_freq_table_rcu (Some z) z2))
                    = pstates z2
                    /\ num_pstates (set_perf_target (Some zero_perf_target)
                                      (set_freq_table_rcu (Some z) z2))
                       = num_pstates z2
                    /\ stats (set_perf_target (Some zero_perf_target)
                                (set_freq_table_rcu (Some z) z2))
                       = stats z2
                    /\ min_freq (set_perf_target (Some zero_perf_target)
                                   (set_freq_table_rcu (Some z) z2))
                       = min_freq z2
                    /\ max_freq (set_perf_target (Some zero_perf_target)
                                   (set_freq_table_rcu (Some z) z2))
                       = max_freq z2) as Hfr
    by (intros z; destruct z2; simpl; auto).
  eexists. split; [reflexivity|].
  match goal with
  | |- context [set_freq_table_rcu (Some ?t) z2] =>
      destruct (Hfr t) as (-> & -> & -> & -> & ->)
  end.
  clear Hfr. rewrite H5.
  split; [lia|]. split; [|split; [|split; [reflexivity|]]].
  - intros j Hj. cbv zeta. rewrite H1.
    rewrite pstate_at_map_take by (subst n; lia).
    destruct (Hall j Hj) as (Hen & Hb & _).
    destruct (verify_pstate_no_boost mp (pstate_at (pstates z1) j) Hb)
      as (_ & Hs & Hv & Hb' & Hen').
    rewrite Hs, Hv, Hb', Hen', Hen. auto.
  - rewrite H2, Hst, H1. cbn [voltage_clamps zero_stats Z.add].
    rewrite take_app_length'
      by (rewrite length_map, length_take_le; subst n; lia).
    rewrite count_unsafe_map_verify by exact Hfa. reflexivity.
  - rewrite Hmn, Hmx. destruct (Hall 0 ltac:(lia)) as (_ & _ & ?). lia.
Qed.

Lemma init_cpu_voltage_marks_witness :
  exists zcpu,
    (zen_freq_init_cpu default_params example_policy example_rdmsr true true
       true true).1.2 = Some zcpu
    /\ 0 < num_pstates zcpu <= 8.
Proof.
  pose proof (init_cpu_voltage_marks default_params example_policy
                example_rdmsr true true true true) as H.
  cbv zeta in H.
  assert ((zen_freq_init_cpu default_params example_policy example_rdmsr
             true true true true).1.1 = 0) as E by (vm_compute; reflexivity).
  rewrite E in H. change (0 =? 0) with true in H. cbv iota in H.
  destruct H as (zcpu & H1 & H2 & _). exists zcpu. split; assumption.
Defined.

(** ** Policy limits *)

(** X24.  [zen_freq_verify_policy] on a core whose [min_freq] does not
    exceed its [max_freq]: it returns 0 with [min <= max <= max_freq];
    [min] is at least [min_freq] unless the requested maximum was below
    [min_freq], in which case both limits become that maximum, below the
    range of the hardware; and verifying a verified policy changes
    nothing. *)
Theorem verify_policy_clamps policy zcpu :
  min_freq zcpu <= max_freq zcpu ->
  let r := zen_freq_verify_policy policy (Some zcpu) in
  r.1 = 0
  /\ p_min r.2 <= p_max r.2 <= max_freq zcpu
  /\ (min_freq zcpu <= p_max policy -> min_freq zcpu <= p_min r.2)
  /\ (p_max policy < min_freq zcpu ->
      p_min r.2 = p_max policy /\ p_max r.2 = p_max policy)
  /\ zen_freq_verify_policy r.2 (Some zcpu) = r.
Proof.
  intros Hmm. cbv zeta. unfold zen_freq_verify_policy.
  cbn [fst snd p_min p_max p_cpu p_cur].
  set (a := min_freq zcpu) in *. set (b := max_freq zcpu) in *.
  set (lo := p_min policy). set (hi := p_max policy).
  clearbody a b lo hi.
  rewrite !Z.gtb_ltb.
  repeat match goal with
         | |- context [?x <? ?y] =>
             lazymatch x with
             | context [if _ then _ else _] => fail
             | _ =>
                 lazymatch y with
                 | context [if _ then _ else _] => fail
                 | _ => destruct (Z.ltb_spec x y); cbv iota
                 end
             end
         end;
    repeat split; intros; try lia; try reflexivity;
    try (exfalso; lia); repeat f_equal; lia.
Qed.

Lemma verify_policy_clamps_witness :
  let r :=
    zen_freq_verify_policy (mk_policy 0 0 100000 200000)
      (Some (example_zcpu default_params)) in
  p_min r.2 = 200000 /\ p_max r.2 = 200000.
Proof.
  destruct (verify_policy_clamps (mk_policy 0 0 100000 200000)
              (example_zcpu default_params))
    as (_ & _ & _ & H & _); [vm_compute; discriminate|].
  apply H. vm_compute. reflexivity.
Defined.

(** ** The [mode] attribute *)

(** X25.  Reading the [mode] attribute and writing the text back: the
    three modes powersave, balance and performance are stored again as
    themselves, whatever the parser of numbers does; the text shown for
    the userspace mode is not one of the words [mode_store] knows, so
    with a parser that rejects it the write fails with [-EINVAL] and the
    mode stays as it was. *)
Theorem mode_show_store_round_trip kstrtouint cur count m :
  0 <= m <= 3 ->
  kstrtouint (mode_show ZEN_FREQ_MODE_USERSPACE) = None ->
  mode_store kstrtouint cur (mode_show m) count
  = if m =? ZEN_FREQ_MODE_USERSPACE then (- EINVAL, cur) else (count, m).
Proof.
  intros Hm Hk.
  assert (m = 0 \/ m = 1 \/ m = 2 \/ m = 3) as [-> | [-> | [-> | ->]]]
    by lia;
    try reflexivity.
  unfold mode_store.
  change (String.prefix "powersave" (mode_show 3)) with false.
  change (String.prefix "balance" (mode_show 3)) with false.
  change (String.prefix "performance" (mode_show 3)) with false.
  cbv iota. change 3 with ZEN_FREQ_MODE_USERSPACE at 1. rewrite Hk.
  reflexivity.
Qed.

Lemma mode_show_store_round_trip_witness :
  mode_store (fun _ => None) 0 (mode_show 2) 12 = (12, 2)
  /\ mode_store (fun _ => None) 0 (mode_show 3) 10 = (- EINVAL, 0).
Proof.
  split.
  - apply (mode_show_store_round_trip (fun _ => None) 0 12 2);
      [vm_compute; split; discriminate | reflexivity].
  - apply (mode_show_store_round_trip (fun _ => None) 0 10 3);
      [vm_compute; split; discriminate | reflexivity].
Defined.

(** X26.  A number above 3 written to [mode] is rejected with [-EINVAL],
    but it is already stored: the mode reads back as ["unknown"]
    afterwards. *)
Theorem mode_store_rejected_number_is_kept kstrtouint cur buf count v :
  String.prefix "powersave" buf = false ->
  String.prefix "balance" buf = false ->
  String.prefix "performance" buf = false ->
  kstrtouint buf = Some v -> ZEN_FREQ_MODE_USERSPACE < v ->
  let r := mode_store kstrtouint cur buf count in
  r.1 = - EINVAL /\ r.2 = v
  /\ zen_freq_get_mode_string r.2 = "unknown"%string.
Proof.
  intros H1 H2 H3 Hk Hv. cbv zeta. unfold mode_store.
  rewrite H1, H2, H3, Hk.
  destruct (v >? ZEN_FREQ_MODE_USERSPACE) eqn:E; [|lia].
  cbn [fst snd]. split; [reflexivity|]. split; [reflexivity|].
  unfold zen_freq_get_mode_string, ZEN_FREQ_MODE_POWERSAVE,
    ZEN_FREQ_MODE_BALANCE, ZEN_FREQ_MODE_PERFORMANCE,
    ZEN_FREQ_MODE_USERSPACE in *.
  destruct (v =? 0) eqn:?; [lia|]. destruct (v =? 1) eqn:?; [lia|].
  destruct (v =? 2) eqn:?; [lia|]. destruct (v =? 3) eqn:?; [lia|].
  reflexivity.
Qed.

Lemma mode_store_rejected_number_is_kept_witness :
  let r := mode_store (fun _ => Some 7) 1 "7" 1 in
  r.1 = - EINVAL /\ r.2 = 7.
Proof.
  destruct (mode_store_rejected_number_is_kept (fun _ => Some 7) 1 "7" 1 7)
    as (H1 & H2 & _); [reflexivity.. |].
  cbv zeta. split; [exact H1 | exact H2].
Defined.
